(** * A verified model of the Perplexity chat-completions client

    Shallow embedding of [src/perplexity-api/main.py]: the configuration
    dataclass [PerplexityConfig] and the client class [PerplexityAPI]
    with its constructor, [_get_headers], [query] and [stream_query].

    Conventions of the embedding.
    - A Python [str] is a Rocq [string] holding the UTF-8 encoding of the
      text (a lone surrogate, which a [str] may contain, is written with
      the same three-byte scheme).  [str.encode()] and
      [bytes.decode('utf-8')] are then the identity on well-formed input
      and raise on the rest.
    - A Python [dict] with string keys is a [gmap string _]; a [list] is a
      [list].
    - Python numbers are [number]: an [int] is a [Z], a [float] is a
      binary64 [float].
    - Code with effects (environment, network, randomness, exceptions)
      runs in the monad [M], a state monad over [World] whose results are
      either a value or a raised exception.
    - The libraries the client calls are modelled as follows:
      [cryptography.fernet] is an interface ([Fernet]) with its round-trip
      contract; [requests.post] is a function of the world; [json.loads]
      is the parser of module [Json]; [requests]' [raise_for_status] is
      written out.  Resource limits of the interpreter (recursion depth,
      the digit limit of [int]) are outside the model. *)

From Stdlib Require Import ZArith String Ascii List Bool Lia PrimFloat.
From stdpp Require Import gmap strings list.

Open Scope Z_scope.

(** ** Python values *)

Inductive number :=
| NInt (z : Z)
| NFloat (f : float).

#[warnings="-register-all"]
Inductive pyval :=
| VNone
| VBool (b : bool)
| VNum (n : number)
| VStr (s : string)
| VList (l : list pyval)
| VDict (d : gmap string pyval).

(** [bytes] objects; a byte is an [ascii]. *)
Abbreviation bytes := string.

(** ** Exceptions *)

(** The subclasses of [requests.exceptions.RequestException] that matter
    to a caller; every other subclass is [OtherRequestError] with its
    class name. *)
Inductive request_error :=
| ConnectionError
| Timeout
| HTTPError
| OtherRequestError (cls : string).

Inductive exn :=
| ValueError (msg : string)
| RuntimeError (msg : string)
| RequestException (kind : request_error) (msg : string)
| JSONDecodeError
| UnicodeDecodeError
| UnicodeEncodeError
| InvalidToken
| OtherException (cls msg : string).

Inductive result (A : Type) :=
| Ok (a : A)
| Raise (e : exn).
Arguments Ok {A} a.
Arguments Raise {A} e.

Definition is_ok {A} (r : result A) : bool :=
  match r with Ok _ => true | Raise _ => false end.

(** ** Truthiness *)

Definition truthy_str (s : string) : bool :=
  match s with EmptyString => false | String _ _ => true end.

Definition truthy_opt_str (o : option string) : bool :=
  match o with Some s => truthy_str s | None => false end.

Definition truthy_opt_int (o : option Z) : bool :=
  match o with Some n => negb (n =? 0) | None => false end.

Definition truthy_opt_list {A} (o : option (list A)) : bool :=
  match o with Some (_ :: _) => true | _ => false end.

(** An [Optional[int]] and an [Optional[list]] as values. *)
Definition of_opt_int (o : option Z) : pyval :=
  match o with Some n => VNum (NInt n) | None => VNone end.

Definition of_opt_list (o : option (list pyval)) : pyval :=
  match o with Some l => VList l | None => VNone end.

(** Python's [a or b] on optional strings. *)
Definition or_else (a b : option string) : option string :=
  if truthy_opt_str a then a else b.

(** ** Text and bytes *)

Definition byte_val (c : ascii) : Z := Z.of_N (N_of_ascii c).
Definition byte_of (n : Z) : ascii := ascii_of_N (Z.to_N n).

Definition in_range (lo hi : Z) (c : ascii) : bool :=
  (lo <=? byte_val c) && (byte_val c <=? hi).

(** Strict UTF-8: shortest forms only, no surrogates, nothing above
    U+10FFFF. *)
Fixpoint utf8_valid (s : string) : bool :=
  match s with
  | EmptyString => true
  | String b0 r =>
    let n := byte_val b0 in
    if n <? 0x80 then utf8_valid r
    else if in_range 0xC2 0xDF b0 then
      match r with
      | String b1 r1 => in_range 0x80 0xBF b1 && utf8_valid r1
      | _ => false
      end
    else if in_range 0xE0 0xEF b0 then
      match r with
      | String b1 (String b2 r2) =>
        in_range (if n =? 0xE0 then 0xA0 else 0x80)
                 (if n =? 0xED then 0x9F else 0xBF) b1
        && in_range 0x80 0xBF b2 && utf8_valid r2
      | _ => false
      end
    else if in_range 0xF0 0xF4 b0 then
      match r with
      | String b1 (String b2 (String b3 r3)) =>
        in_range (if n =? 0xF0 then 0x90 else 0x80)
                 (if n =? 0xF4 then 0x8F else 0xBF) b1
        && in_range 0x80 0xBF b2 && in_range 0x80 0xBF b3 && utf8_valid r3
      | _ => false
      end
    else false
  end.

(** [s.encode()]: fails on a lone surrogate. *)
Definition str_encode (s : string) : result bytes :=
  if utf8_valid s then Ok s else Raise UnicodeEncodeError.

(** [b.decode('utf-8')], also [b.decode()] *)
Definition bytes_decode (b : bytes) : result string :=
  if utf8_valid b then Ok b else Raise UnicodeDecodeError.

(** [bytes.strip()] removes the ASCII whitespace bytes at both ends. *)
Fixpoint lstrip (s : string) : string :=
  match s with
  | EmptyString => EmptyString
  | String c r => if Ascii.is_space c then lstrip r else s
  end.

Definition rstrip (s : string) : string := String.rev (lstrip (String.rev s)).

Definition strip (s : string) : string := rstrip (lstrip s).

(** [s[n:]] *)
Fixpoint str_drop (n : nat) (s : string) : string :=
  match n, s with
  | S n', String _ r => str_drop n' r
  | _, _ => s
  end.

(** [s.startswith(p)] *)
Fixpoint startswith (p s : string) : bool :=
  match p with
  | EmptyString => true
  | String a p' =>
    match s with
    | EmptyString => false
    | String b s' => Ascii.eqb a b && startswith p' s'
    end
  end.

(** Decimal digits of a non-negative integer, as [str(n)] prints them. *)
Fixpoint digits_of (fuel : nat) (n : Z) (acc : string) : string :=
  match fuel with
  | O => acc
  | S fuel' =>
    let acc' := String (byte_of (48 + n mod 10)) acc in
    if n <? 10 then acc' else digits_of fuel' (n / 10) acc'
  end.

Definition str_of_int (n : Z) : string :=
  let fuel := S (Z.to_nat (Z.log2 (Z.abs n))) in
  if n <? 0 then String "-" (digits_of fuel (- n) EmptyString)
  else digits_of fuel n EmptyString.

(** ** [json.loads]

    The decoder of Python's [json] module in its default configuration:
    RFC 8259 texts, plus the literals [NaN], [Infinity] and [-Infinity];
    strings are scanned in strict mode (no raw control characters); an
    object becomes a [dict] in which a repeated key keeps its last value.
    A number with a fraction or an exponent is handed to [float], which
    is a parameter here ([parse_float], as the decoder itself calls it). *)

Class FloatParser := { parse_float : string -> float }.

Module Json.

Inductive scan (A : Type) :=
| Scanned (a : A) (rest : string)
| Invalid
| Exhausted.
Arguments Scanned {A} a rest.
Arguments Invalid {A}.
Arguments Exhausted {A}.

Definition is_ws (c : ascii) : bool :=
  match c with
  | " " | "009" | "010" | "013" => true
  | _ => false
  end%char.

Fixpoint skip_ws (s : string) : string :=
  match s with
  | EmptyString => EmptyString
  | String c r => if is_ws c then skip_ws r else s
  end.

Definition is_digit (c : ascii) : bool := in_range 48 57 c.

(** The longest run of digits at the head of [s], and what follows. *)
Fixpoint span_digits (s : string) : string * string :=
  match s with
  | EmptyString => (EmptyString, EmptyString)
  | String c r =>
    if is_digit c
    then let '(d, r') := span_digits r in (String c d, r')
    else (EmptyString, s)
  end.

Fixpoint int_of_digits (acc : Z) (d : string) : Z :=
  match d with
  | EmptyString => acc
  | String c r => int_of_digits (10 * acc + (byte_val c - 48)) r
  end.

(** [s] without its first character, when that is [c]. *)
Definition expect (c : ascii) (s : string) : option string :=
  match s with
  | String c' r => if Ascii.eqb c' c then Some r else None
  | EmptyString => None
  end.

(** An optional minus sign, then either a single 0 or a digit 1-9
    followed by any digits: sign, digits, rest. *)
Definition match_integer (s : string) : option (bool * string * string) :=
  let '(neg, r) :=
    match expect "-" s with
    | Some r => (true, r)
    | None => (false, s)
    end in
  match r with
  | EmptyString => None
  | String c r' =>
    if Ascii.eqb c "0" then Some (neg, "0", r')
    else if in_range 49 57 c
    then let '(d, r'') := span_digits r' in Some (neg, String c d, r'')
    else None
  end.

(** An optional fraction: a dot and at least one digit. *)
Definition match_frac (s : string) : string * string :=
  match expect "." s with
  | Some r =>
    match span_digits r with
    | (EmptyString, _) => (EmptyString, s)
    | (d, r') => (String "." d, r')
    end
  | None => (EmptyString, s)
  end.

(** An optional exponent: e or E, an optional sign, at least one digit. *)
Definition match_exp (s : string) : string * string :=
  match s with
  | String e r =>
    if Ascii.eqb e "e" || Ascii.eqb e "E" then
      let '(sign, r1) :=
        match expect "+" r with
        | Some r1 => ("+", r1)
        | None =>
          match expect "-" r with
          | Some r1 => ("-", r1)
          | None => (EmptyString, r)
          end
        end in
      match span_digits r1 with
      | (EmptyString, _) => (EmptyString, s)
      | (d, r2) => (String e (sign +:+ d), r2)
      end
    else (EmptyString, s)
  | EmptyString => (EmptyString, s)
  end.

Definition match_number `{FloatParser} (s : string) : option (number * string) :=
  match match_integer s with
  | None => None
  | Some (neg, d, r) =>
    let '(frac, r1) := match_frac r in
    let '(exp, r2) := match_exp r1 in
    match frac, exp with
    | EmptyString, EmptyString =>
      Some (NInt (if neg then - int_of_digits 0 d else int_of_digits 0 d), r2)
    | _, _ =>
      Some (NFloat (parse_float ((if neg then "-" else EmptyString)
                                   +:+ d +:+ frac +:+ exp)), r2)
    end
  end.

Definition hex_val (c : ascii) : option Z :=
  if in_range 48 57 c then Some (byte_val c - 48)
  else if in_range 97 102 c then Some (byte_val c - 87)
  else if in_range 65 70 c then Some (byte_val c - 55)
  else None.

Definition hex4 (a b c d : ascii) : option Z :=
  match hex_val a, hex_val b, hex_val c, hex_val d with
  | Some x, Some y, Some z, Some w => Some (((x * 16 + y) * 16 + z) * 16 + w)
  | _, _, _, _ => None
  end.

(** The bytes that stand for the code point [cp] in a [str]. *)
Definition encode_cp (cp : Z) : string :=
  if cp <? 0x80 then String (byte_of cp) EmptyString
  else if cp <? 0x800 then
    String (byte_of (0xC0 + cp / 64))
      (String (byte_of (0x80 + cp mod 64)) EmptyString)
  else if cp <? 0x10000 then
    String (byte_of (0xE0 + cp / 4096))
      (String (byte_of (0x80 + (cp / 64) mod 64))
         (String (byte_of (0x80 + cp mod 64)) EmptyString))
  else
    String (byte_of (0xF0 + cp / 262144))
      (String (byte_of (0x80 + (cp / 4096) mod 64))
         (String (byte_of (0x80 + (cp / 64) mod 64))
            (String (byte_of (0x80 + cp mod 64)) EmptyString))).

Definition prepend (chunk : string) (o : option (string * string))
  : option (string * string) :=
  match o with
  | Some (t, r) => Some (chunk +:+ t, r)
  | None => None
  end.

Definition char1 (c : ascii) : string := String c EmptyString.

Definition quote : ascii := "034".

(** The character an escape of two characters stands for. *)
Definition simple_escape (e : ascii) : option ascii :=
  match e with
  | "034" => Some "034"
  | "\" => Some "\"
  | "/" => Some "/"
  | "b" => Some "008"
  | "f" => Some "012"
  | "n" => Some "010"
  | "r" => Some "013"
  | "t" => Some "009"
  | _ => None
  end%char.

Definition is_surrogate_pair (hi lo : Z) : bool :=
  (0xD800 <=? hi) && (hi <=? 0xDBFF) && (0xDC00 <=? lo) && (lo <=? 0xDFFF).

Definition join_surrogates (hi lo : Z) : Z :=
  0x10000 + ((hi - 0xD800) * 1024 + (lo - 0xDC00)).

(** The body of a string literal, after its opening quote: the text
    it denotes and what follows the closing quote.  A [\uXXXX] escape
    of a high surrogate that is followed by one of a low surrogate
    stands, with it, for one character. *)
Fixpoint scanstring (s : string) : option (string * string) :=
  match s with
  | EmptyString => None
  | String c r =>
    if Ascii.eqb c quote then Some (EmptyString, r)
    else if Ascii.eqb c "\" then
      match r with
      | EmptyString => None
      | String e r0 =>
        if Ascii.eqb e "u" then
          match r0 with
          | String h1 (String h2 (String h3 (String h4 r1))) =>
            match hex4 h1 h2 h3 h4 with
            | None => None
            | Some hi =>
              match r1 with
              | String b (String u (String l1 (String l2 (String l3 (String l4 r2))))) =>
                match (if Ascii.eqb b "\" && Ascii.eqb u "u"
                       then hex4 l1 l2 l3 l4 else None) with
                | Some lo =>
                  if is_surrogate_pair hi lo
                  then prepend (encode_cp (join_surrogates hi lo)) (scanstring r2)
                  else prepend (encode_cp hi) (scanstring r1)
                | None => prepend (encode_cp hi) (scanstring r1)
                end
              | _ => prepend (encode_cp hi) (scanstring r1)
              end
            end
          | _ => None
          end
        else
          match simple_escape e with
          | Some c' => prepend (char1 c') (scanstring r0)
          | None => None
          end
      end
    else if byte_val c <? 0x20 then None
    else prepend (char1 c) (scanstring r)
  end.

Section Scanner.
Context `{FloatParser}.

Definition scan_atom (s : string) : scan pyval :=
  if startswith "null" s then Scanned VNone (str_drop 4 s)
  else if startswith "true" s then Scanned (VBool true) (str_drop 4 s)
  else if startswith "false" s then Scanned (VBool false) (str_drop 5 s)
  else if startswith "NaN" s then Scanned (VNum (NFloat nan)) (str_drop 3 s)
  else if startswith "Infinity" s then Scanned (VNum (NFloat infinity)) (str_drop 8 s)
  else if startswith "-Infinity" s then Scanned (VNum (NFloat neg_infinity)) (str_drop 9 s)
  else match match_number s with
       | Some (n, r) => Scanned (VNum n) r
       | None => Invalid
       end.

(** One value at the head of [s]; [scan_members] and [scan_elems]
    read what follows the opening brace or bracket (and the
    whitespace after it) when the container is not empty. *)
Fixpoint scan_once (fuel : nat) (s : string) : scan pyval :=
  match fuel with
  | O => Exhausted
  | S fuel =>
    match s with
    | EmptyString => Invalid
    | String c r =>
      if Ascii.eqb c quote then
        match scanstring r with
        | Some (t, r') => Scanned (VStr t) r'
        | None => Invalid
        end
      else if Ascii.eqb c "{" then
        match expect "}" (skip_ws r) with
        | Some r' => Scanned (VDict ∅) r'
        | None => scan_members fuel ∅ (skip_ws r)
        end
      else if Ascii.eqb c "[" then
        match expect "]" (skip_ws r) with
        | Some r' => Scanned (VList []) r'
        | None => scan_elems fuel [] (skip_ws r)
        end
      else scan_atom s
    end
  end
with scan_members (fuel : nat) (acc : gmap string pyval) (s : string) : scan pyval :=
  match fuel with
  | O => Exhausted
  | S fuel =>
    match expect quote s with
    | None => Invalid
    | Some r =>
      match scanstring r with
      | None => Invalid
      | Some (key, r1) =>
        match expect ":" (skip_ws r1) with
        | None => Invalid
        | Some r2 =>
          match scan_once fuel (skip_ws r2) with
          | Scanned v r3 =>
            match expect "}" (skip_ws r3) with
            | Some r4 => Scanned (VDict (<[key := v]> acc)) r4
            | None =>
              match expect "," (skip_ws r3) with
              | Some r4 => scan_members fuel (<[key := v]> acc) (skip_ws r4)
              | None => Invalid
              end
            end
          | Invalid => Invalid
          | Exhausted => Exhausted
          end
        end
      end
    end
  end
with scan_elems (fuel : nat) (acc : list pyval) (s : string) : scan pyval :=
  match fuel with
  | O => Exhausted
  | S fuel =>
    match scan_once fuel s with
    | Scanned v r =>
      match expect "]" (skip_ws r) with
      | Some r' => Scanned (VList (acc ++ [v])) r'
      | None =>
        match expect "," (skip_ws r) with
        | Some r' => scan_elems fuel (acc ++ [v]) (skip_ws r')
        | None => Invalid
        end
      end
    | Invalid => Invalid
    | Exhausted => Exhausted
    end
  end.

Definition fuel_for (s : string) : nat := 2 * String.length s + 2.

(** [json.loads(s)]: one value, whitespace allowed around it. *)
Definition loads (s : string) : result pyval :=
  match scan_once (fuel_for s) (skip_ws s) with
  | Scanned v r =>
    match skip_ws r with
    | EmptyString => Ok v
    | _ => Raise JSONDecodeError
    end
  | _ => Raise JSONDecodeError
  end.
End Scanner.

End Json.

(** ** The world the client runs in *)

(** What [requests.post] is called with. *)
Record Request := {
  req_url : string;
  req_headers : gmap string string;
  req_json : gmap string pyval;
  req_stream : bool;
  req_timeout : Z
}.

(** A [requests.Response], as far as the client looks at it:
    [json_body] is what [response.json()] does; [lines] is what
    [response.iter_lines()] yields, and [lines_end] the exception it
    raises after the last of them when the transfer breaks off. *)
Record Response := {
  status_code : Z;
  reason : string;
  url : string;
  json_body : result pyval;
  lines : list bytes;
  lines_end : option exn
}.

Record World := {
  environ : gmap string string;          (* os.environ *)
  dotenv_file : gmap string string;      (* the .env file load_dotenv() reads *)
  urandom : nat -> nat -> bytes;         (* os.urandom: call number, size *)
  urandom_calls : nat;
  clock : Z;                             (* time.time() *)
  server : Request -> result Response;   (* how a POST is answered *)
  posted : list Request                  (* the POSTs issued so far *)
}.

Definition M (A : Type) : Type := World -> result A * World.

Definition ret {A} (a : A) : M A := fun w => (Ok a, w).

Definition raise {A} (e : exn) : M A := fun w => (Raise e, w).

Definition bind {A B} (m : M A) (k : A -> M B) : M B :=
  fun w =>
    match m w with
    | (Ok a, w') => k a w'
    | (Raise e, w') => (Raise e, w')
    end.

Definition lift {A} (r : result A) : M A := fun w => (r, w).

Notation "x <- m ;; k" := (bind m (fun x => k))
  (at level 100, m at next level, right associativity).
Notation "m ;;; k" := (bind m (fun _ => k))
  (at level 100, right associativity).

(** [try: m  except requests.exceptions.RequestException as e: h(str(e))] *)
Definition except_RequestException {A} (m : M A) (h : string -> M A) : M A :=
  fun w =>
    match m w with
    | (Raise (RequestException _ msg), w') => h msg w'
    | r => r
    end.

(** [load_dotenv()]: variables of the file that the environment does not
    define yet are added to it. *)
Definition load_dotenv : M unit :=
  fun w =>
    (Ok tt,
     {| environ := environ w ∪ dotenv_file w;
        dotenv_file := dotenv_file w;
        urandom := urandom w;
        urandom_calls := urandom_calls w;
        clock := clock w;
        server := server w;
        posted := posted w |}).

Definition os_getenv (name : string) : M (option string) :=
  fun w => (Ok (environ w !! name), w).

Definition os_urandom (size : nat) : M bytes :=
  fun w =>
    (Ok (urandom w (urandom_calls w) size),
     {| environ := environ w;
        dotenv_file := dotenv_file w;
        urandom := urandom w;
        urandom_calls := S (urandom_calls w);
        clock := clock w;
        server := server w;
        posted := posted w |}).

Definition time_time : M Z := fun w => (Ok (clock w), w).

(** [requests.post(url, headers=..., json=..., stream=..., timeout=...)] *)
Definition requests_post (u : string) (headers : gmap string string)
    (json : gmap string pyval) (stream : bool) (timeout : Z) : M Response :=
  fun w =>
    let req := {| req_url := u; req_headers := headers; req_json := json;
                  req_stream := stream; req_timeout := timeout |} in
    (server w req,
     {| environ := environ w;
        dotenv_file := dotenv_file w;
        urandom := urandom w;
        urandom_calls := urandom_calls w;
        clock := clock w;
        server := server w;
        posted := posted w ++ [req] |}).

(** [Response.raise_for_status()] of the requests library. *)
Definition http_error_msg (r : Response) : string :=
  if (400 <=? status_code r) && (status_code r <? 500) then
    str_of_int (status_code r) +:+ " Client Error: " +:+ reason r
      +:+ " for url: " +:+ url r
  else if (500 <=? status_code r) && (status_code r <? 600) then
    str_of_int (status_code r) +:+ " Server Error: " +:+ reason r
      +:+ " for url: " +:+ url r
  else EmptyString.

Definition raise_for_status (r : Response) : result unit :=
  if truthy_str (http_error_msg r)
  then Raise (RequestException HTTPError (http_error_msg r))
  else Ok tt.

(** ** [cryptography.fernet.Fernet]

    [generate_key] turns 32 random bytes into a key; [encrypt] needs the
    key, a 16-byte initialisation vector and the current time; [decrypt]
    answers [None] where the library raises [InvalidToken]. *)
Class Fernet := {
  generate_key : bytes -> bytes;
  encrypt : bytes -> bytes -> Z -> bytes -> bytes;
  decrypt : bytes -> bytes -> option bytes
}.

(** The library's contract: a token decrypts, under the key that made
    it, to the data it was made from. *)
Definition fernet_roundtrip `{Fernet} : Prop :=
  forall seed iv now data,
    decrypt (generate_key seed) (encrypt (generate_key seed) iv now data)
    = Some data.

(** ** [PerplexityConfig] *)

Record PerplexityConfig := {
  api_key : option string;
  base_url : string;
  model : string;
  temperature : number;
  top_p : number;
  max_tokens : option Z;
  presence_penalty : number;
  frequency_penalty : number;
  search_domain_filter : option (list pyval);
  return_images : bool;
  return_related_questions : bool;
  search_recency_filter : string;
  top_k : Z
}.

(** [PerplexityConfig(api_key=k)]: every other field takes its default. *)
Definition PerplexityConfig_of_key (k : option string) : PerplexityConfig :=
  {| api_key := k;
     base_url := "https://api.perplexity.ai/chat/completions";
     model := "llama-3.1-sonar-small-128k-online";
     temperature := NFloat 0x1.999999999999ap-3;
     top_p := NFloat 0x1.ccccccccccccdp-1;
     max_tokens := None;
     presence_penalty := NInt 0;
     frequency_penalty := NInt 1;
     search_domain_filter := None;
     return_images := false;
     return_related_questions := false;
     search_recency_filter := "month";
     top_k := 0 |}.

(** [0.0 <= x <= 1.0] *)
Definition in_unit_interval (x : number) : bool :=
  match x with
  | NInt z => (0 <=? z) && (z <=? 1)
  | NFloat f => (PrimFloat.leb 0 f && PrimFloat.leb f 1)%bool
  end.

(** ** [PerplexityAPI] *)

Module PerplexityAPI.
Section Client.
Context `{Fernet} `{FloatParser}.

(** The attributes of a client object.  [_fernet] is the [Fernet]
    object made from [_key]; it holds that key and nothing else. *)
Record t := {
  config : PerplexityConfig;
  _key : bytes;
  _fernet : bytes;
  _encrypted_key : bytes
}.

Definition key_not_found : string :=
  "API key not found. Set PPLX_API_KEY environment variable or pass it directly.".

Definition __init__ (api_key_arg : option string) : M t :=
  load_dotenv ;;;
  env_key <- os_getenv "PPLX_API_KEY" ;;
  let cfg := PerplexityConfig_of_key (or_else api_key_arg env_key) in
  match api_key cfg with
  | Some k =>
    if truthy_str k then
      (* Encrypt API key in memory *)
      seed <- os_urandom 32 ;;
      let key := generate_key seed in
      plain <- lift (str_encode k) ;;
      now <- time_time ;;
      iv <- os_urandom 16 ;;
      ret {| config := cfg;
             _key := key;
             _fernet := key;
             _encrypted_key := encrypt key iv now plain |}
    else raise (ValueError key_not_found)
  | None => raise (ValueError key_not_found)
  end.

Definition _get_headers (self : t) : result (gmap string string) :=
  match decrypt (_fernet self) (_encrypted_key self) with
  | None => Raise InvalidToken
  | Some plain =>
    match bytes_decode plain with
    | Raise e => Raise e
    | Ok k =>
      Ok {[ "Accept" := "application/json";
            "Content-Type" := "application/json";
            "Authorization" := "Bearer " +:+ k ]}
    end
  end.

Definition message (role content : string) : pyval :=
  VDict {[ "role" := VStr role; "content" := VStr content ]}.

(** [payload.update({...})] with the three keys both methods add. *)
Definition update_flags (cfg : PerplexityConfig) (payload : gmap string pyval)
  : gmap string pyval :=
  <["top_k" := VNum (NInt (top_k cfg))]>
    (<["return_related_questions" := VBool (return_related_questions cfg)]>
       (<["return_images" := VBool (return_images cfg)]> payload)).

(** The payload [query] builds (lines 82-107). *)
Definition query_payload (self : t) (prompt system_prompt : string)
  : gmap string pyval :=
  let cfg := config self in
  let payload : gmap string pyval :=
    {[ "model" := VStr (model cfg);
       "messages" := VList [message "system" system_prompt;
                            message "user" prompt];
       "temperature" := VNum (temperature cfg);
       "top_p" := VNum (top_p cfg);
       "presence_penalty" := VNum (presence_penalty cfg);
       "frequency_penalty" := VNum (frequency_penalty cfg);
       "stream" := VBool false ]} in
  let payload :=
    if truthy_opt_int (max_tokens cfg)
    then <["max_tokens" := of_opt_int (max_tokens cfg)]> payload
    else payload in
  let payload :=
    if truthy_opt_list (search_domain_filter cfg)
    then <["search_domain_filter" := of_opt_list (search_domain_filter cfg)]> payload
    else payload in
  let payload :=
    if truthy_str (search_recency_filter cfg)
    then <["search_recency_filter" := VStr (search_recency_filter cfg)]> payload
    else payload in
  update_flags cfg payload.

(** The payload [stream_query] builds (lines 133-158). *)
Definition stream_query_payload (self : t) (prompt system_prompt : string)
  : gmap string pyval :=
  let cfg := config self in
  let payload : gmap string pyval :=
    {[ "model" := VStr (model cfg);
       "messages" := VList [message "system" system_prompt;
                            message "user" prompt];
       "temperature" := VNum (temperature cfg);
       "top_p" := VNum (top_p cfg);
       "presence_penalty" := VNum (presence_penalty cfg);
       "frequency_penalty" := VNum (frequency_penalty cfg);
       "stream" := VBool true ]} in
  let payload :=
    if truthy_opt_int (max_tokens cfg)
    then <["max_tokens" := of_opt_int (max_tokens cfg)]> payload
    else payload in
  let payload :=
    if truthy_opt_list (search_domain_filter cfg)
    then <["search_domain_filter" := of_opt_list (search_domain_filter cfg)]> payload
    else payload in
  let payload :=
    if truthy_str (search_recency_filter cfg)
    then <["search_recency_filter" := VStr (search_recency_filter cfg)]> payload
    else payload in
  update_flags cfg payload.

Definition query (self : t) (prompt system_prompt : string) : M pyval :=
  except_RequestException
    (let payload := query_payload self prompt system_prompt in
     headers <- lift (_get_headers self) ;;
     response <- requests_post (base_url (config self)) headers payload false 30 ;;
     lift (raise_for_status response) ;;;
     lift (json_body response))
    (fun cause => raise (RuntimeError ("API request failed: " +:+ cause))).

(** Handle potential data: prefix in SSE *)
Definition event_text (data : string) : string :=
  if startswith "data: " data then str_drop 6 data else data.

(** The loop over [response.iter_lines()]: the values yielded, in
    order, and the exception that ends the iteration, if one does.
    [fin] is what the transport raises after the last line. *)
Fixpoint iter_events (ls : list bytes) (fin : option exn)
  : list pyval * option exn :=
  match ls with
  | [] => ([], fin)
  | line :: rest =>
    if truthy_str line && truthy_str (strip line) then
      match bytes_decode line with
      | Raise e => ([], Some e)
      | Ok data =>
        match Json.loads (event_text data) with
        | Ok v => let '(vs, e) := iter_events rest fin in (v :: vs, e)
        | Raise JSONDecodeError => iter_events rest fin
        | Raise e => ([], Some e)
        end
      end
    else iter_events rest fin
  end.

(** What the [except] clause of [stream_query] does to an exception. *)
Definition stream_except (e : exn) : exn :=
  match e with
  | RequestException _ cause => RuntimeError ("Streaming request failed: " +:+ cause)
  | _ => e
  end.

(** [stream_query] returns a generator; this is what consuming it to
    its end does: the values it yields, in order, how it ends ([None]
    when it is exhausted, [Some e] when it raises [e]), and the world
    afterwards. *)
Definition stream_query (self : t) (prompt system_prompt : string)
  : World -> (list pyval * option exn) * World :=
  fun w =>
    let payload := stream_query_payload self prompt system_prompt in
    match _get_headers self with
    | Raise e => (([], Some (stream_except e)), w)
    | Ok headers =>
      match requests_post (base_url (config self)) headers payload true 30 w with
      | (Raise e, w') => (([], Some (stream_except e)), w')
      | (Ok response, w') =>
        match raise_for_status response with
        | Raise e => (([], Some (stream_except e)), w')
        | Ok _ =>
          let '(vs, e) := iter_events (lines response) (lines_end response) in
          ((vs, option_map stream_except e), w')
        end
      end
    end.
End Client.
End PerplexityAPI.

(** The credential the constructor settles on: the argument when it is
    a non-empty string, else what the environment (after [load_dotenv])
    holds under [PPLX_API_KEY]. *)
Definition credential (api_key_arg : option string) (w : World) : option string :=
  or_else api_key_arg ((environ w ∪ dotenv_file w) !! "PPLX_API_KEY").

(** The headers of a request made with the credential [k]. *)
Definition headers_for (k : string) : gmap string string :=
  {[ "Accept" := "application/json";
     "Content-Type" := "application/json";
     "Authorization" := "Bearer " +:+ k ]}.

(** The request [query] posts. *)
Definition query_request (self : PerplexityAPI.t) (prompt system_prompt : string)
    (headers : gmap string string) : Request :=
  {| req_url := base_url (PerplexityAPI.config self);
     req_headers := headers;
     req_json := PerplexityAPI.query_payload self prompt system_prompt;
     req_stream := false;
     req_timeout := 30 |}.

(** The request [stream_query] posts. *)
Definition stream_query_request (self : PerplexityAPI.t) (prompt system_prompt : string)
    (headers : gmap string string) : Request :=
  {| req_url := base_url (PerplexityAPI.config self);
     req_headers := headers;
     req_json := PerplexityAPI.stream_query_payload self prompt system_prompt;
     req_stream := true;
     req_timeout := 30 |}.

(** ** Stand-ins for the libraries

    Used where a statement is evaluated on a concrete run.  The cipher
    tags the data with the key; the float parser is never reached by the
    texts of the examples. *)

Module Double.
#[export] Instance tag_fernet : Fernet := {|
  generate_key seed := seed;
  encrypt key iv now data := key +:+ data;
  decrypt key token :=
    if startswith key token
    then Some (str_drop (String.length key) token)
    else None
|}.

#[export] Instance no_float : FloatParser := {| parse_float _ := nan |}.

Definition zeros (size : nat) : bytes :=
  string_of_list_ascii (repeat (byte_of 0) size).

(** A world with the given environment and server, and nothing posted. *)
Definition world (env : gmap string string) (srv : Request -> result Response)
  : World :=
  {| environ := env;
     dotenv_file := ∅;
     urandom := fun _ size => zeros size;
     urandom_calls := 0;
     clock := 0;
     server := srv;
     posted := [] |}.

Definition response (status : Z) (why : string) (body : result pyval)
    (ls : list bytes) : Response :=
  {| status_code := status;
     reason := why;
     url := "https://api.perplexity.ai/chat/completions";
     json_body := body;
     lines := ls;
     lines_end := None |}.

(** The client [PerplexityAPI("secret")] makes in [world ∅ srv]. *)
Definition client : PerplexityAPI.t :=
  {| PerplexityAPI.config := PerplexityConfig_of_key (Some "secret");
     PerplexityAPI._key := zeros 32;
     PerplexityAPI._fernet := zeros 32;
     PerplexityAPI._encrypted_key := zeros 32 +:+ "secret" |}.

(** [PerplexityAPI("secret")] with [max_tokens] then set to 64. *)
Definition client64 : PerplexityAPI.t :=
  {| PerplexityAPI.config :=
       {| api_key := Some "secret";
          base_url := "https://api.perplexity.ai/chat/completions";
          model := "llama-3.1-sonar-small-128k-online";
          temperature := NFloat 0x1.999999999999ap-3;
          top_p := NFloat 0x1.ccccccccccccdp-1;
          max_tokens := Some 64;
          presence_penalty := NInt 0;
          frequency_penalty := NInt 1;
          search_domain_filter := None;
          return_images := false;
          return_related_questions := false;
          search_recency_filter := "month";
          top_k := 0 |};
     PerplexityAPI._key := zeros 32;
     PerplexityAPI._fernet := zeros 32;
     PerplexityAPI._encrypted_key := zeros 32 +:+ "secret" |}.

(** Servers: one that cannot be reached, one that answers every POST
    with the same response. *)
Definition unreachable : Request -> result Response :=
  fun _ => Raise (RequestException ConnectionError "Connection refused").

Definition always (r : Response) : Request -> result Response :=
  fun _ => Ok r.
End Double.

(** [PerplexityConfig(api_key="k", temperature=2.0)] *)
Definition overheated : PerplexityConfig :=
  {| api_key := Some "k";
     base_url := "https://api.perplexity.ai/chat/completions";
     model := "llama-3.1-sonar-small-128k-online";
     temperature := NFloat 2;
     top_p := NFloat 0x1.ccccccccccccdp-1;
     max_tokens := None;
     presence_penalty := NInt 0;
     frequency_penalty := NInt 1;
     search_domain_filter := None;
     return_images := false;
     return_related_questions := false;
     search_recency_filter := "month";
     top_k := 0 |}.

(** The example stream of the specification. *)
Definition dq : string := String "034" EmptyString.

Definition sse_lines : list bytes :=
  [ "data: {" +:+ dq +:+ "a" +:+ dq +:+ ":1}";
    "not json";
    "data: {" +:+ dq +:+ "a" +:+ dq +:+ ":2}" ].

(** Whether a line has a byte that [bytes.strip()] keeps. *)
Fixpoint has_nonspace (s : string) : bool :=
  match s with
  | EmptyString => false
  | String c r => negb (Ascii.is_space c) || has_nonspace r
  end.

(** ** [main]

    The example program.  What it prints is recorded as a list of
    [printed] items, one per call of [print], before any rendering:
    turning a value or an exception into text ([json.dumps], [str]) and
    writing it out are outside the model, and are taken not to fail.
    [exn] holds subclasses of [Exception] only, so that the [except
    Exception] clause of [main] catches each of them. *)

(** The exceptions that looking into a chunk can raise. *)
Inductive lookup_error :=
| TypeError
| KeyError (key : string)
| KeyError0
| IndexError.

Inductive main_error :=
| ClientError (e : exn)
| LookupError (e : lookup_error).

Inductive printed :=
| PrintText (s : string)       (* print(s), s a literal *)
| PrintJson (v : pyval)        (* print(json.dumps(v, indent=2)) *)
| PrintContent (v : pyval)     (* print(v, end='', flush=True) *)
| PrintNewline                 (* print() *)
| PrintError (e : main_error). (* print(f"Error: {str(e)}") *)

(** [bool(v)] *)
Definition truthy (v : pyval) : bool :=
  match v with
  | VNone => false
  | VBool b => b
  | VNum (NInt z) => negb (z =? 0)
  | VNum (NFloat f) => negb (PrimFloat.eqb f 0)
  | VStr s => truthy_str s
  | VList l => match l with [] => false | _ :: _ => true end
  | VDict d => negb (Nat.eqb (size d) 0)
  end.

(** [needle in hay] on strings *)
Fixpoint contains (needle hay : string) : bool :=
  startswith needle hay
  || match hay with
     | EmptyString => false
     | String _ r => contains needle r
     end.

Definition is_str (key : string) (v : pyval) : bool :=
  match v with
  | VStr s => String.eqb s key
  | _ => false
  end.

(** [key in v], [key] a string *)
Definition py_in (key : string) (v : pyval) : lookup_error + bool :=
  match v with
  | VDict d => inr (bool_decide (is_Some (d !! key)))
  | VList l => inr (existsb (is_str key) l)
  | VStr s => inr (contains key s)
  | VNone | VBool _ | VNum _ => inl TypeError
  end.

(** [v[key]], [key] a string *)
Definition py_getitem (v : pyval) (key : string) : lookup_error + pyval :=
  match v with
  | VDict d =>
    match d !! key with
    | Some x => inr x
    | None => inl (KeyError key)
    end
  | _ => inl TypeError
  end.

(** The first character of a non-empty string: as many bytes as its
    first byte announces. *)
Definition first_char (s : string) : string :=
  match s with
  | EmptyString => EmptyString
  | String b r =>
    let n := byte_val b in
    let more := if n <? 0xC0 then 0%nat
                else if n <? 0xE0 then 1%nat
                else if n <? 0xF0 then 2%nat
                else 3%nat in
    String b (String.substring 0 more r)
  end.

(** [v[0]] *)
Definition py_getitem0 (v : pyval) : lookup_error + pyval :=
  match v with
  | VList (x :: _) => inr x
  | VList [] => inl IndexError
  | VStr EmptyString => inl IndexError
  | VStr s => inr (VStr (first_char s))
  | VDict _ => inl KeyError0
  | VNone | VBool _ | VNum _ => inl TypeError
  end.

Definition lookup_bind {A B} (r : lookup_error + A) (k : A -> lookup_error + B)
  : lookup_error + B :=
  match r with
  | inl e => inl e
  | inr a => k a
  end.

(** The body of the loop of [main] over the chunks: the content it
    prints for [chunk], if it prints one. *)
Definition chunk_content (chunk : pyval) : lookup_error + option pyval :=
  lookup_bind (py_in "choices" chunk) (fun has_choices =>
  if negb has_choices then inr None else
  lookup_bind (py_getitem chunk "choices") (fun choices =>
  if negb (truthy choices) then inr None else
  lookup_bind (py_getitem0 choices) (fun choice =>
  lookup_bind (py_in "delta" choice) (fun has_delta =>
  if negb has_delta then inr None else
  lookup_bind (py_getitem choice "delta") (fun delta =>
  lookup_bind (py_in "content" delta) (fun has_content =>
  if negb has_content then inr None else
  lookup_bind (py_getitem delta "content") (fun content =>
  if truthy content then inr (Some content) else inr None))))))).

(** What the loop prints for the chunks a generator yields, and for
    the way the generator ends ([fin]); the loop stops at the first
    chunk that raises. *)
Fixpoint print_chunks (chunks : list pyval) (fin : option exn) : list printed :=
  match chunks with
  | [] =>
    match fin with
    | None => [PrintNewline]
    | Some e => [PrintError (ClientError e)]
    end
  | chunk :: rest =>
    match chunk_content chunk with
    | inl e => [PrintError (LookupError e)]
    | inr (Some content) => PrintContent content :: print_chunks rest fin
    | inr None => print_chunks rest fin
    end
  end.

Definition query_prompt : string := "How many stars are there in our galaxy?".
Definition stream_prompt : string := "What is the distance to the moon?".
Definition default_system_prompt : string := "Be precise and concise.".
Definition streaming_banner : string := String "010" "Streaming response:".

Section Main.
Context `{Fernet} `{FloatParser}.

(** [main()]: what it prints, and the world it leaves. *)
Definition main (w : World) : list printed * World :=
  match PerplexityAPI.__init__ None w with
  | (Raise e, w1) => ([PrintError (ClientError e)], w1)
  | (Ok client, w1) =>
    match PerplexityAPI.query client query_prompt default_system_prompt w1 with
    | (Raise e, w2) =>
      ([PrintText "Regular query response:"; PrintError (ClientError e)], w2)
    | (Ok response, w2) =>
      let '((chunks, fin), w3) :=
        PerplexityAPI.stream_query client stream_prompt default_system_prompt w2 in
      ([PrintText "Regular query response:"; PrintJson response;
        PrintText streaming_banner] ++ print_chunks chunks fin, w3)
    end
  end.
End Main.

(** ** More stand-ins *)

Module Fixture.
Import Double.

(** A client whose token was not made with its key. *)
Definition tampered : PerplexityAPI.t :=
  {| PerplexityAPI.config := PerplexityConfig_of_key (Some "secret");
     PerplexityAPI._key := zeros 32;
     PerplexityAPI._fernet := zeros 32;
     PerplexityAPI._encrypted_key := "not a token" |}.

(** U+D800, a lone surrogate. *)
Definition lone_surrogate : string :=
  String (byte_of 0xED) (String (byte_of 0xA0) (String (byte_of 0x80) EmptyString)).

(** A response whose transfer breaks off after the lines [ls]. *)
Definition interrupted (ls : list bytes) : Response :=
  {| status_code := 200;
     reason := "OK";
     url := "https://api.perplexity.ai/chat/completions";
     json_body := Ok VNone;
     lines := ls;
     lines_end := Some (RequestException ConnectionError "Connection broken") |}.

(** The chunk [{"choices": [{"delta": {"content": text}}]}]. *)
Definition delta_chunk (text : string) : pyval :=
  VDict {[ "choices" :=
             VList [VDict {[ "delta" := VDict {[ "content" := VStr text ]} ]}] ]}.

(** A server that answers a streaming request with the lines [ls] and
    any other request with the JSON value [v]. *)
Definition chat (v : pyval) (ls : list bytes) : Request -> result Response :=
  fun req =>
    Ok (if req_stream req
        then response 200 "OK" (Ok VNone) ls
        else response 200 "OK" (Ok v) []).

Definition with_key (k : string) : gmap string string :=
  {[ "PPLX_API_KEY" := k ]}.

(** [PerplexityAPI("secret")] with [max_tokens] then set to [n]. *)
Definition with_max_tokens (n : Z) : PerplexityAPI.t :=
  {| PerplexityAPI.config :=
       {| api_key := Some "secret";
          base_url := "https://api.perplexity.ai/chat/completions";
          model := "llama-3.1-sonar-small-128k-online";
          temperature := NFloat 0x1.999999999999ap-3;
          top_p := NFloat 0x1.ccccccccccccdp-1;
          max_tokens := Some n;
          presence_penalty := NInt 0;
          frequency_penalty := NInt 1;
          search_domain_filter := None;
          return_images := false;
          return_related_questions := false;
          search_recency_filter := "month";
          top_k := 0 |};
     PerplexityAPI._key := zeros 32;
     PerplexityAPI._fernet := zeros 32;
     PerplexityAPI._encrypted_key := zeros 32 +:+ "secret" |}.

(** A server that fails inside the library with an exception that is
    not one of the requests library. *)
Definition crashing : Request -> result Response :=
  fun _ => Raise (OtherException "MemoryError" "out of memory").

(** The world right after [PerplexityAPI()] in [world (with_key k) srv]. *)
Definition after_init (k : string) (srv : Request -> result Response) : World :=
  {| environ := with_key k;
     dotenv_file := ∅;
     urandom := fun _ size => zeros size;
     urandom_calls := 2;
     clock := 0;
     server := srv;
     posted := [] |}.
End Fixture.

(** Looks a key up in a payload, over the cases of its optional
    entries. *)
Ltac payload_lookup :=
  unfold PerplexityAPI.query_payload, PerplexityAPI.stream_query_payload,
    PerplexityAPI.update_flags;
  repeat match goal with
         | |- context [if ?b then _ else _] => destruct b
         end;
  simplify_map_eq; reflexivity.

(** Rewrites the lookups in a dictionary chunk with what is known of
    its entries, from the lemmas on a present key, an absent key and a
    present item. *)
Ltac chunk_step_by present absent item :=
  cbn [lookup_bind negb truthy py_getitem0];
  match goal with
  | Hd : ?d !! ?key = Some ?x |- context [py_in ?key (VDict ?d)] =>
    rewrite (present d key x Hd)
  | Hd : ?d !! ?key = None |- context [py_in ?key (VDict ?d)] =>
    rewrite (absent d key Hd)
  | Hd : ?d !! ?key = Some ?x |- context [py_getitem (VDict ?d) ?key] =>
    rewrite (item d key x Hd)
  end.

(** * Properties *)

(** ** The decoder is total *)

(** Case analysis on every test and match of a hypothesis. *)
Ltac break_in H :=
  repeat (cbv beta iota in H;
          match type of H with
          | context [if ?b then _ else _] => destruct b eqn:?
          | context [match ?x with _ => _ end] => destruct x eqn:?
          end);
  cbv beta iota in H; try discriminate H.

(** Length bookkeeping for the scanners, from the length lemmas of
    [span_digits] and [expect]. *)
Ltac lengths_by span_lemma expect_lemma :=
  repeat match goal with
         | E : Json.span_digits _ = _ |- _ => apply span_lemma in E
         | E : Json.expect _ _ = Some _ |- _ => apply expect_lemma in E
         | E : (_, _) = (_, _) |- _ => injection E as <- <-
         | E : Some _ = Some _ |- _ => injection E as <- <- <-
         end;
  subst; cbn [String.length] in *; try lia.

Section Decoder.
Context `{FloatParser}.
Import Json.

Lemma skip_ws_length (s : string) :
  (String.length (skip_ws s) <= String.length s)%nat.
Proof.
  induction s as [|c s IH]; cbn; [lia|]. destruct (is_ws c); cbn; lia.
Qed.

Lemma expect_length (c : ascii) (s r : string) :
  expect c s = Some r -> String.length s = S (String.length r).
Proof.
  destruct s as [|c' s]; cbn; [discriminate|].
  destruct (Ascii.eqb c' c); [|discriminate]. intros [= ->]. reflexivity.
Qed.

Lemma prepend_Some (chunk : string) (o : option (string * string)) (t r : string) :
  prepend chunk o = Some (t, r) -> exists t', o = Some (t', r).
Proof.
  destruct o as [[t' r']|]; cbn; [|discriminate]. intros [= _ ->]. eauto.
Qed.

Lemma scanstring_shorter (n : nat) :
  forall s t r, (String.length s <= n)%nat ->
    scanstring s = Some (t, r) -> (String.length r < String.length s)%nat.
Proof.
  induction n as [|n IH]; intros s t r Hn Hs.
  - destruct s; [discriminate | cbn in Hn; lia].
  - destruct s as [|c s]; [discriminate|].
    cbn [scanstring] in Hs.
    break_in Hs;
      try (apply prepend_Some in Hs as [t' Hs]; apply IH in Hs;
           cbn [String.length] in *; lia).
    injection Hs as <- <-. cbn. lia.
Qed.

Lemma span_digits_length (s d r : string) :
  span_digits s = (d, r) -> (String.length r <= String.length s)%nat.
Proof.
  revert d r. induction s as [|c s IH]; intros d r; cbn.
  - intros [= <- <-]. cbn. lia.
  - destruct (is_digit c).
    + destruct (span_digits s) as [d' r'] eqn:E. intros [= <- <-].
      specialize (IH _ _ eq_refl). lia.
    + intros [= <- <-]. cbn. lia.
Qed.

Lemma match_integer_shorter (s d r : string) (neg : bool) :
  match_integer s = Some (neg, d, r) -> (String.length r < String.length s)%nat.
Proof.
  unfold match_integer.
  destruct (expect "-" s) as [r0|] eqn:E; intros Hm; break_in Hm;
    lengths_by span_digits_length expect_length.
Qed.

Lemma match_frac_length (s f r : string) :
  match_frac s = (f, r) -> (String.length r <= String.length s)%nat.
Proof.
  unfold match_frac. intros Hm. break_in Hm;
    lengths_by span_digits_length expect_length.
Qed.

Lemma match_exp_length (s e r : string) :
  match_exp s = (e, r) -> (String.length r <= String.length s)%nat.
Proof.
  unfold match_exp. destruct s as [|c s]; [intros [= <- <-]; lia|].
  destruct (_ || _); [|intros [= <- <-]; lia].
  destruct (expect "+" s) as [r1|] eqn:E1;
    [|destruct (expect "-" s) as [r1|] eqn:E2];
    intros Hm; break_in Hm; lengths_by span_digits_length expect_length.
Qed.

Lemma match_number_shorter (s r : string) (n : number) :
  match_number s = Some (n, r) -> (String.length r < String.length s)%nat.
Proof.
  unfold match_number. intros Hm.
  destruct (match_integer s) as [[[neg d] r0]|] eqn:Hi; [|discriminate].
  destruct (match_frac r0) as [f r1] eqn:Hf.
  destruct (match_exp r1) as [e r2] eqn:He.
  apply match_integer_shorter in Hi. apply match_frac_length in Hf.
  apply match_exp_length in He.
  assert (r = r2) as -> by (destruct f, e; congruence).
  lia.
Qed.

Lemma startswith_drop (p s : string) :
  startswith p s = true ->
  (String.length (str_drop (String.length p) s) + String.length p
   = String.length s)%nat.
Proof.
  revert s. induction p as [|a p IH]; intros s; cbn.
  - intros _. destruct s; cbn; lia.
  - destruct s as [|b s]; [discriminate|].
    intros [_ Hp]%andb_prop. cbn. rewrite <- (IH s Hp). lia.
Qed.

Lemma scan_atom_shorter (s r : string) (v : pyval) :
  scan_atom s = Scanned v r -> (String.length r < String.length s)%nat.
Proof.
  unfold scan_atom. intros Hs.
  repeat match type of Hs with
         | context [if startswith ?p s then _ else _] =>
           destruct (startswith p s) eqn:?
         end;
    try (injection Hs as _ <-;
         match goal with
         | E : startswith _ _ = true |- _ => apply startswith_drop in E; cbn in E; lia
         end).
  destruct (match_number s) as [[n r']|] eqn:Hn; [|discriminate].
  injection Hs as _ <-. eapply match_number_shorter, Hn.
Qed.

Lemma scan_atom_not_exhausted (s : string) : scan_atom s <> Exhausted.
Proof.
  unfold scan_atom.
  repeat match goal with
         | |- context [if ?b then _ else _] => destruct b
         end; try discriminate.
  destruct (match_number s) as [[n r']|]; discriminate.
Qed.

(** A scanned value is never empty: what follows it is shorter than
    what it was scanned from. *)
Lemma scan_shorter (fuel : nat) :
  (forall s v r, scan_once fuel s = Scanned v r ->
                 (String.length r < String.length s)%nat)
  /\ (forall acc s v r, scan_members fuel acc s = Scanned v r ->
                        (String.length r < String.length s)%nat)
  /\ (forall acc s v r, scan_elems fuel acc s = Scanned v r ->
                        (String.length r < String.length s)%nat).
Proof.
  induction fuel as [|fuel (IHo & IHm & IHe)]; [repeat split; discriminate|].
  repeat split.
  - intros s v r Hs. cbn [scan_once] in Hs.
    destruct s as [|c s]; [discriminate|].
    destruct (Ascii.eqb c quote).
    { destruct (scanstring s) as [[t r']|] eqn:Hq; [|discriminate].
      injection Hs as _ <-. apply (scanstring_shorter _ _ _ _ (le_n _)) in Hq.
      cbn. lia. }
    pose proof (skip_ws_length s) as Hw.
    destruct (Ascii.eqb c "{").
    { destruct (expect "}" (skip_ws s)) as [r'|] eqn:He.
      - injection Hs as _ <-. apply expect_length in He. cbn. lia.
      - apply IHm in Hs. cbn. lia. }
    destruct (Ascii.eqb c "[").
    { destruct (expect "]" (skip_ws s)) as [r'|] eqn:He.
      - injection Hs as _ <-. apply expect_length in He. cbn. lia.
      - apply IHe in Hs. cbn. lia. }
    apply scan_atom_shorter in Hs. exact Hs.
  - intros acc s v r Hs. cbn [scan_members] in Hs.
    destruct (expect quote s) as [r0|] eqn:E0; [|discriminate].
    destruct (scanstring r0) as [[key r1]|] eqn:E1; [|discriminate].
    destruct (expect ":" (skip_ws r1)) as [r2|] eqn:E2; [|discriminate].
    destruct (scan_once fuel (skip_ws r2)) as [v' r3| |] eqn:E3; try discriminate.
    apply expect_length in E0, E2.
    apply (scanstring_shorter _ _ _ _ (le_n _)) in E1. apply IHo in E3.
    pose proof (skip_ws_length r1). pose proof (skip_ws_length r2).
    pose proof (skip_ws_length r3).
    destruct (expect "}" (skip_ws r3)) as [r4|] eqn:E4.
    + injection Hs as _ <-. apply expect_length in E4. lia.
    + destruct (expect "," (skip_ws r3)) as [r4|] eqn:E5; [|discriminate].
      apply IHm in Hs. apply expect_length in E5.
      pose proof (skip_ws_length r4). lia.
  - intros acc s v r Hs. cbn [scan_elems] in Hs.
    destruct (scan_once fuel s) as [v' r1| |] eqn:E1; try discriminate.
    apply IHo in E1. pose proof (skip_ws_length r1).
    destruct (expect "]" (skip_ws r1)) as [r2|] eqn:E2.
    + injection Hs as _ <-. apply expect_length in E2. lia.
    + destruct (expect "," (skip_ws r1)) as [r2|] eqn:E3; [|discriminate].
      apply IHe in Hs. apply expect_length in E3.
      pose proof (skip_ws_length r2). lia.
Qed.

(** The fuel never runs out: twice the length of the text is enough. *)
Lemma scan_fuel (fuel : nat) :
  (forall s, (2 * String.length s + 1 <= fuel)%nat -> scan_once fuel s <> Exhausted)
  /\ (forall acc s, (2 * String.length s + 2 <= fuel)%nat ->
                    scan_members fuel acc s <> Exhausted)
  /\ (forall acc s, (2 * String.length s + 2 <= fuel)%nat ->
                    scan_elems fuel acc s <> Exhausted).
Proof.
  induction fuel as [|fuel (IHo & IHm & IHe)]; [repeat split; intros; lia|].
  repeat split.
  - intros s Hf. cbn [scan_once].
    destruct s as [|c s]; [discriminate|]. cbn [String.length] in Hf.
    destruct (Ascii.eqb c quote).
    { destruct (scanstring s) as [[t r']|]; discriminate. }
    pose proof (skip_ws_length s) as Hw.
    destruct (Ascii.eqb c "{").
    { destruct (expect "}" (skip_ws s)); [discriminate|]. apply IHm. lia. }
    destruct (Ascii.eqb c "[").
    { destruct (expect "]" (skip_ws s)); [discriminate|]. apply IHe. lia. }
    apply scan_atom_not_exhausted.
  - intros acc s Hf. cbn [scan_members].
    destruct (expect quote s) as [r0|] eqn:E0; [|discriminate].
    destruct (scanstring r0) as [[key r1]|] eqn:E1; [|discriminate].
    destruct (expect ":" (skip_ws r1)) as [r2|] eqn:E2; [|discriminate].
    apply expect_length in E0, E2.
    apply (scanstring_shorter _ _ _ _ (le_n _)) in E1.
    pose proof (skip_ws_length r1). pose proof (skip_ws_length r2).
    destruct (scan_once fuel (skip_ws r2)) as [v' r3| |] eqn:E3; try discriminate.
    + apply (proj1 (scan_shorter fuel)) in E3. pose proof (skip_ws_length r3).
      destruct (expect "}" (skip_ws r3)) as [r4|]; [discriminate|].
      destruct (expect "," (skip_ws r3)) as [r4|] eqn:E5; [|discriminate].
      apply expect_length in E5. pose proof (skip_ws_length r4).
      apply IHm. lia.
    + exfalso. revert E3. apply IHo. lia.
  - intros acc s Hf. cbn [scan_elems].
    destruct (scan_once fuel s) as [v' r1| |] eqn:E1; try discriminate.
    + apply (proj1 (scan_shorter fuel)) in E1. pose proof (skip_ws_length r1).
      destruct (expect "]" (skip_ws r1)) as [r2|]; [discriminate|].
      destruct (expect "," (skip_ws r1)) as [r2|] eqn:E3; [|discriminate].
      apply expect_length in E3. pose proof (skip_ws_length r2).
      apply IHe. lia.
    + exfalso. revert E1. apply IHo. lia.
Qed.

(** [loads] never stops for want of fuel. *)
Lemma loads_fuel (s : string) :
  scan_once (fuel_for s) (skip_ws s) <> Exhausted.
Proof.
  apply (proj1 (scan_fuel (fuel_for s))). unfold fuel_for.
  pose proof (skip_ws_length s). lia.
Qed.
End Decoder.

(** ** The payload *)

Section Payload.
Context `{Fernet} `{FloatParser}.
Import PerplexityAPI.

Lemma update_flags_lookup cfg (p : gmap string pyval) k :
  k ≠ "top_k" -> k ≠ "return_related_questions" -> k ≠ "return_images" ->
  update_flags cfg p !! k = p !! k.
Proof.
  intros H1 H2 H3. unfold update_flags.
  rewrite !lookup_insert_ne by congruence. reflexivity.
Qed.

(** C4. For every prompt and system prompt, the [messages] entry of
    the payload is the two-element list with the system message first
    and the user message second, in [query] and in [stream_query]. *)
Theorem payload_messages (self : t) (prompt system_prompt : string) :
  query_payload self prompt system_prompt !! "messages"
    = Some (VList [VDict {[ "role" := VStr "system"; "content" := VStr system_prompt ]};
                   VDict {[ "role" := VStr "user"; "content" := VStr prompt ]}])
  /\ stream_query_payload self prompt system_prompt !! "messages"
    = Some (VList [VDict {[ "role" := VStr "system"; "content" := VStr system_prompt ]};
                   VDict {[ "role" := VStr "user"; "content" := VStr prompt ]}]).
Proof.
  unfold query_payload, stream_query_payload, message.
  split; rewrite update_flags_lookup by discriminate;
    repeat match goal with
           | |- context [if ?b then _ else _] => destruct b
           end;
    simplify_map_eq; reflexivity.
Qed.

(** C5. With [max_tokens] unset the payload has no [max_tokens] key;
    with [max_tokens] set to a positive integer [n] the payload maps
    [max_tokens] to [n].  Both hold in [query] and in [stream_query]. *)
Theorem payload_max_tokens (self : t) (prompt system_prompt : string) :
  (max_tokens (config self) = None ->
     query_payload self prompt system_prompt !! "max_tokens" = None
     /\ stream_query_payload self prompt system_prompt !! "max_tokens" = None)
  /\ (forall n : Z, 0 < n -> max_tokens (config self) = Some n ->
     query_payload self prompt system_prompt !! "max_tokens" = Some (VNum (NInt n))
     /\ stream_query_payload self prompt system_prompt !! "max_tokens"
        = Some (VNum (NInt n))).
Proof.
  unfold query_payload, stream_query_payload.
  split.
  - intros ->. cbn [truthy_opt_int].
    split; rewrite update_flags_lookup by discriminate;
      repeat match goal with
             | |- context [if ?b then _ else _] => destruct b
             end;
      simplify_map_eq; reflexivity.
  - intros n Hn ->. cbn [truthy_opt_int of_opt_int].
    destruct (Z.eqb_spec n 0) as [->|_]; [lia|]. cbn [negb].
    split; rewrite update_flags_lookup by discriminate;
      repeat match goal with
             | |- context [if ?b then _ else _] => destruct b
             end;
      simplify_map_eq; reflexivity.
Qed.

(** C6. The payloads of [query] and [stream_query] agree on every key
    but [stream], which [query] sets to false and [stream_query] to
    true. *)
Theorem payloads_agree_up_to_stream (self : t) (prompt system_prompt : string) :
  delete "stream" (query_payload self prompt system_prompt)
    = delete "stream" (stream_query_payload self prompt system_prompt)
  /\ query_payload self prompt system_prompt !! "stream" = Some (VBool false)
  /\ stream_query_payload self prompt system_prompt !! "stream" = Some (VBool true).
Proof.
  unfold query_payload, stream_query_payload, update_flags.
  repeat match goal with
         | |- context [if ?b then _ else _] => destruct b
         end;
    (split; [| split; simplify_map_eq; reflexivity]);
    rewrite !delete_insert_ne by discriminate;
    rewrite !delete_singleton_eq; reflexivity.
Qed.
End Payload.

Section Construction.
Context `{Fernet}.
Import PerplexityAPI.

Lemma init_fails (a : option string) (w : World) :
  truthy_opt_str (credential a w) = false ->
  exists w', __init__ a w = (Raise (ValueError key_not_found), w')
             /\ posted w' = posted w.
Proof.
  unfold credential, __init__, bind, load_dotenv, os_getenv. cbn.
  destruct (or_else a _) as [k|]; cbn.
  - intros ->. eexists. split; reflexivity.
  - intros _. eexists. split; reflexivity.
Qed.

(** A successful construction: the credential is a non-empty,
    encodable string [k], the configuration is the default one around
    [k], and the token encrypts [k] under a fresh key. *)
Lemma init_succeeds_inv (a : option string) (w w' : World) (c : t) :
  __init__ a w = (Ok c, w') ->
  exists k seed iv now,
    credential a w = Some k /\ truthy_str k = true /\ utf8_valid k = true
    /\ c = {| config := PerplexityConfig_of_key (Some k);
              _key := generate_key seed;
              _fernet := generate_key seed;
              _encrypted_key := encrypt (generate_key seed) iv now k |}
    /\ posted w' = posted w.
Proof.
  unfold credential, __init__, bind, load_dotenv, os_getenv, os_urandom,
    time_time, lift, ret, raise, str_encode. cbn.
  destruct (or_else a _) as [k|]; cbn; [|discriminate].
  destruct (truthy_str k) eqn:Hk; cbn; [|discriminate].
  destruct (utf8_valid k) eqn:Hv; cbn; [|discriminate].
  intros [= <- <-]. cbn. repeat eexists; eauto.
Qed.

(** C3. With no credential argument and no [PPLX_API_KEY] in the
    environment or the [.env] file, construction raises the
    no-credential [ValueError] and posts nothing. *)
Theorem init_without_credential (w : World) :
  environ w !! "PPLX_API_KEY" = None ->
  dotenv_file w !! "PPLX_API_KEY" = None ->
  exists w', __init__ None w = (Raise (ValueError key_not_found), w')
             /\ posted w' = posted w.
Proof.
  intros He Hd. apply init_fails. unfold credential. cbn.
  replace ((environ w ∪ dotenv_file w) !! "PPLX_API_KEY") with (@None string);
    [reflexivity|].
  symmetry. apply lookup_union_None. split; assumption.
Qed.

(** C10. An empty credential argument is treated as no argument: the
    constructor does the same in both cases, and with nothing in the
    environment it raises the no-credential [ValueError]. *)
Theorem init_empty_credential (w : World) :
  environ w !! "PPLX_API_KEY" = None ->
  dotenv_file w !! "PPLX_API_KEY" = None ->
  __init__ (Some EmptyString) w = __init__ None w
  /\ fst (__init__ (Some EmptyString) w) = Raise (ValueError key_not_found).
Proof.
  intros He Hd. split; [reflexivity|].
  destruct (init_fails (Some EmptyString) w) as (w' & -> & _); [|reflexivity].
  unfold credential. cbn.
  replace ((environ w ∪ dotenv_file w) !! "PPLX_API_KEY") with (@None string);
    [reflexivity|].
  symmetry. apply lookup_union_None. split; assumption.
Qed.

(** C7. The constructed client keeps the plaintext credential: its
    [config.api_key] attribute is the credential itself. *)
Theorem init_stores_plaintext (a : option string) (w w' : World) (c : t) :
  __init__ a w = (Ok c, w') ->
  exists k, credential a w = Some k /\ api_key (config c) = Some k.
Proof.
  intros Hi. apply init_succeeds_inv in Hi as (k & seed & iv & now & Hc & _ & _ & -> & _).
  exists k. split; [assumption | reflexivity].
Qed.

(** C9. The configuration of every constructed client, which is the
    default configuration, has temperature 0.2, inside [0.0, 1.0]. *)
Theorem init_temperature (a : option string) (w w' : World) (c : t) :
  __init__ a w = (Ok c, w') ->
  temperature (config c) = NFloat 0x1.999999999999ap-3
  /\ in_unit_interval (temperature (config c)) = true.
Proof.
  intros Hi. apply init_succeeds_inv in Hi as (k & seed & iv & now & _ & _ & _ & -> & _).
  split; reflexivity.
Qed.
End Construction.

Section Calls.
Context `{Fernet} `{FloatParser}.
Import PerplexityAPI.

Lemma truthy_str_app_r (a b : string) :
  truthy_str b = true -> truthy_str (a +:+ b) = true.
Proof. destruct b; [discriminate|]. intros _. destruct a; reflexivity. Qed.

Lemma raise_for_status_error (r : Response) :
  400 <= status_code r < 600 ->
  raise_for_status r = Raise (RequestException HTTPError (http_error_msg r)).
Proof.
  intros Hs. unfold raise_for_status.
  replace (truthy_str (http_error_msg r)) with true; [reflexivity|].
  symmetry. unfold http_error_msg.
  destruct (Z.leb_spec 400 (status_code r)); [|lia].
  destruct (Z.ltb_spec (status_code r) 500); cbn [andb].
  - apply truthy_str_app_r. reflexivity.
  - destruct (Z.leb_spec 500 (status_code r)); [|lia].
    destruct (Z.ltb_spec (status_code r) 600); [|lia]. cbn [andb].
    apply truthy_str_app_r. reflexivity.
Qed.

Lemma raise_for_status_pass (r : Response) :
  status_code r < 400 \/ 600 <= status_code r ->
  raise_for_status r = Ok tt.
Proof.
  intros Hs. unfold raise_for_status, http_error_msg.
  destruct (Z.leb_spec 400 (status_code r)), (Z.ltb_spec (status_code r) 500),
    (Z.leb_spec 500 (status_code r)), (Z.ltb_spec (status_code r) 600);
    cbn; try reflexivity; lia.
Qed.

(** C2. When the POST of [query] raises a [RequestException] (a
    connection error, a timeout, ...) or is answered with a status
    from 400 to 599, [query] raises [RuntimeError] with the message
    "API request failed: " followed by the description of the cause,
    and returns nothing. *)
Theorem query_transport_failure (self : t) (prompt system_prompt : string)
    (w : World) (headers : gmap string string) :
  _get_headers self = Ok headers ->
  (forall kind cause,
      server w (query_request self prompt system_prompt headers)
        = Raise (RequestException kind cause) ->
      fst (query self prompt system_prompt w)
        = Raise (RuntimeError ("API request failed: " +:+ cause)))
  /\ (forall r,
      server w (query_request self prompt system_prompt headers) = Ok r ->
      400 <= status_code r < 600 ->
      fst (query self prompt system_prompt w)
        = Raise (RuntimeError ("API request failed: " +:+ http_error_msg r))).
Proof.
  intros Hh. unfold query, except_RequestException, bind, lift, requests_post,
    query_request, raise.
  rewrite Hh. split.
  - intros kind cause ->. reflexivity.
  - intros r -> Hs. rewrite (raise_for_status_error r Hs). reflexivity.
Qed.

(** A POST answered with a status that is not an error status: [query]
    returns what [response.json()] returns. *)
Lemma query_success (self : t) (prompt system_prompt : string) (w : World)
    (headers : gmap string string) (r : Response) (v : pyval) :
  _get_headers self = Ok headers ->
  server w (query_request self prompt system_prompt headers) = Ok r ->
  status_code r < 400 \/ 600 <= status_code r ->
  json_body r = Ok v ->
  fst (query self prompt system_prompt w) = Ok v.
Proof.
  intros Hh Hs Hc Hj.
  unfold query, except_RequestException, bind, lift, requests_post.
  fold (query_request self prompt system_prompt headers).
  unfold query_request in Hs |- *.
  rewrite Hh, Hs, (raise_for_status_pass r Hc), Hj. reflexivity.
Qed.

(** A line that is not UTF-8 ends the iteration: [UnicodeDecodeError] is
    not among the exceptions the loop catches. *)
Lemma iter_events_undecodable (line : bytes) (rest : list bytes) (fin : option exn) :
  truthy_str line && truthy_str (strip line) = true ->
  utf8_valid line = false ->
  iter_events (line :: rest) fin = ([], Some UnicodeDecodeError).
Proof.
  intros Hb Hu. cbn [iter_events]. unfold bytes_decode.
  rewrite Hb, Hu. reflexivity.
Qed.

(** How the loop of [stream_query] treats one line. *)
Lemma iter_events_blank (line : bytes) (rest : list bytes) (fin : option exn) :
  truthy_str line && truthy_str (strip line) = false ->
  iter_events (line :: rest) fin = iter_events rest fin.
Proof. intros Hb. cbn [iter_events]. rewrite Hb. reflexivity. Qed.

Lemma iter_events_malformed (line : bytes) (rest : list bytes) (fin : option exn) :
  truthy_str line && truthy_str (strip line) = true ->
  utf8_valid line = true ->
  Json.loads (event_text line) = Raise JSONDecodeError ->
  iter_events (line :: rest) fin = iter_events rest fin.
Proof.
  intros Hb Hu Hj. cbn [iter_events]. unfold bytes_decode.
  rewrite Hb, Hu, Hj. reflexivity.
Qed.

Lemma iter_events_value (line : bytes) (rest : list bytes) (fin : option exn)
    (v : pyval) :
  truthy_str line && truthy_str (strip line) = true ->
  utf8_valid line = true ->
  Json.loads (event_text line) = Ok v ->
  iter_events (line :: rest) fin
    = (v :: fst (iter_events rest fin), snd (iter_events rest fin)).
Proof.
  intros Hb Hu Hj. cbn [iter_events]. unfold bytes_decode.
  rewrite Hb, Hu, Hj. destruct (iter_events rest fin). reflexivity.
Qed.

(** C1. When the response to [stream_query] consists of the three
    lines [data: {"a":1}], [not json] and [data: {"a":2}], consuming the
    generator yields the two values [{"a": 1}] and [{"a": 2}], in this
    order, and ends without an exception. *)
Theorem stream_skips_malformed_line (self : t) (prompt system_prompt : string)
    (w : World) (headers : gmap string string) (r : Response) :
  _get_headers self = Ok headers ->
  server w (stream_query_request self prompt system_prompt headers) = Ok r ->
  raise_for_status r = Ok tt ->
  lines r = sse_lines ->
  lines_end r = None ->
  fst (stream_query self prompt system_prompt w)
    = ([VDict {[ "a" := VNum (NInt 1) ]}; VDict {[ "a" := VNum (NInt 2) ]}], None).
Proof.
  intros Hh Hs Hr Hl He.
  unfold stream_query, requests_post. fold (stream_query_request self prompt system_prompt headers).
  rewrite Hh. unfold stream_query_request in Hs |- *. rewrite Hs, Hr, Hl, He.
  unfold sse_lines.
  rewrite (iter_events_value _ _ _ (VDict {[ "a" := VNum (NInt 1) ]}))
    by (vm_compute; reflexivity).
  rewrite iter_events_malformed by (vm_compute; reflexivity).
  rewrite (iter_events_value _ _ _ (VDict {[ "a" := VNum (NInt 2) ]}))
    by (vm_compute; reflexivity).
  reflexivity.
Qed.

Lemma query_posts (self : t) (prompt system_prompt : string) (w : World)
    (headers : gmap string string) :
  _get_headers self = Ok headers ->
  posted (snd (query self prompt system_prompt w))
    = posted w ++ [query_request self prompt system_prompt headers].
Proof.
  intros Hh. unfold query, except_RequestException, bind, lift, requests_post,
    query_request, raise.
  rewrite Hh.
  destruct (server w _) as [r|[]]; try reflexivity.
  destruct (raise_for_status r) as [[]|[]]; try reflexivity.
  destruct (json_body r) as [v|[]]; reflexivity.
Qed.

Lemma stream_query_posts (self : t) (prompt system_prompt : string) (w : World)
    (headers : gmap string string) :
  _get_headers self = Ok headers ->
  posted (snd (stream_query self prompt system_prompt w))
    = posted w ++ [stream_query_request self prompt system_prompt headers].
Proof.
  intros Hh. unfold stream_query, requests_post, stream_query_request.
  rewrite Hh.
  destruct (server w _) as [r|e]; [|reflexivity].
  destruct (raise_for_status r) as [[]|e]; [|reflexivity].
  destruct (iter_events _ _). reflexivity.
Qed.

(** A failed POST of [stream_query]: nothing is yielded, and the
    generator raises [RuntimeError] with the message "Streaming request
    failed: " followed by the description of the cause. *)
Lemma stream_query_transport_failure (self : t) (prompt system_prompt : string)
    (w : World) (headers : gmap string string) :
  _get_headers self = Ok headers ->
  (forall kind cause,
      server w (stream_query_request self prompt system_prompt headers)
        = Raise (RequestException kind cause) ->
      fst (stream_query self prompt system_prompt w)
        = ([], Some (RuntimeError ("Streaming request failed: " +:+ cause))))
  /\ (forall r,
      server w (stream_query_request self prompt system_prompt headers) = Ok r ->
      400 <= status_code r < 600 ->
      fst (stream_query self prompt system_prompt w)
        = ([], Some (RuntimeError ("Streaming request failed: " +:+ http_error_msg r)))).
Proof.
  intros Hh. unfold stream_query, requests_post, stream_query_request.
  rewrite Hh. split.
  - intros kind cause ->. reflexivity.
  - intros r -> Hs. rewrite (raise_for_status_error r Hs). reflexivity.
Qed.

(** C8. For a client constructed with credential [k], the headers are
    [Accept: application/json], [Content-Type: application/json] and
    [Authorization: Bearer k], and these are the headers of the
    request that [query] and [stream_query] post. *)
Theorem headers_carry_credential (a : option string) (w0 w0' : World) (self : t) :
  fernet_roundtrip ->
  __init__ a w0 = (Ok self, w0') ->
  exists k,
    credential a w0 = Some k
    /\ _get_headers self = Ok (headers_for k)
    /\ (forall prompt system_prompt w,
          posted (snd (query self prompt system_prompt w))
          = posted w ++ [query_request self prompt system_prompt (headers_for k)])
    /\ (forall prompt system_prompt w,
          posted (snd (stream_query self prompt system_prompt w))
          = posted w ++ [stream_query_request self prompt system_prompt (headers_for k)]).
Proof.
  intros Hrt Hi.
  apply init_succeeds_inv in Hi as (k & seed & iv & now & Hc & _ & Hv & -> & _).
  assert (Hh : _get_headers
                 {| config := PerplexityConfig_of_key (Some k);
                    _key := generate_key seed;
                    _fernet := generate_key seed;
                    _encrypted_key := encrypt (generate_key seed) iv now k |}
               = Ok (headers_for k)).
  { unfold _get_headers, bytes_decode. cbn. rewrite Hrt, Hv. reflexivity. }
  exists k. repeat split; [assumption | assumption | |].
  - intros. apply query_posts, Hh.
  - intros. apply stream_query_posts, Hh.
Qed.
End Calls.

(** * The statements on concrete runs *)

Section Runs.
Import PerplexityAPI Double.

Lemma startswith_app (k d : string) : startswith k (k +:+ d) = true.
Proof.
  induction k as [|c k IH]; [reflexivity|].
  change (String c k +:+ d) with (String c (k +:+ d)). cbn.
  rewrite Ascii.eqb_refl. assumption.
Qed.

Lemma str_drop_app (k d : string) : str_drop (String.length k) (k +:+ d) = d.
Proof.
  induction k as [|c k IH]; [destruct d; reflexivity|].
  change (String c k +:+ d) with (String c (k +:+ d)). cbn. assumption.
Qed.

Lemma tag_fernet_roundtrip : fernet_roundtrip.
Proof.
  intros seed iv now data. cbn.
  rewrite startswith_app, str_drop_app. reflexivity.
Qed.

Lemma stream_skips_malformed_line_run :
  fst (stream_query client "What is the distance to the moon?"
         "Be precise and concise."
         (world ∅ (always (response 200 "OK" (Ok VNone) sse_lines))))
  = ([VDict {[ "a" := VNum (NInt 1) ]}; VDict {[ "a" := VNum (NInt 2) ]}], None).
Proof.
  apply (stream_skips_malformed_line client _ _ _ (headers_for "secret")
           (response 200 "OK" (Ok VNone) sse_lines));
    reflexivity.
Defined.

Lemma query_transport_failure_run :
  fst (query client "How many stars are there in our galaxy?"
         "Be precise and concise." (world ∅ unreachable))
  = Raise (RuntimeError "API request failed: Connection refused")
  /\ fst (query client "How many stars are there in our galaxy?"
            "Be precise and concise."
            (world ∅ (always (response 500 "Internal Server Error" (Ok VNone) []))))
     = Raise (RuntimeError
                "API request failed: 500 Server Error: Internal Server Error for url: https://api.perplexity.ai/chat/completions").
Proof.
  split.
  - refine (proj1 (query_transport_failure client _ _ (world ∅ unreachable)
                     (headers_for "secret") _)
              ConnectionError "Connection refused" _);
      reflexivity.
  - refine (proj2 (query_transport_failure client _ _
                     (world ∅ (always (response 500 "Internal Server Error" (Ok VNone) [])))
                     (headers_for "secret") _)
              (response 500 "Internal Server Error" (Ok VNone) []) _ _);
      [reflexivity | reflexivity | cbn; lia].
Defined.

(** C2, as the specification has it, fails: a status outside 2xx that
    is not an error status (here 304) does not make [query] raise. *)
Lemma query_returns_on_status_304 :
  fst (query client "How many stars are there in our galaxy?"
         "Be precise and concise."
         (world ∅ (always (response 304 "Not Modified" (Ok (VDict ∅)) []))))
  = Ok (VDict ∅).
Proof. reflexivity. Qed.

Lemma init_without_credential_run :
  exists w', __init__ None (world ∅ unreachable)
             = (Raise (ValueError key_not_found), w')
             /\ posted w' = posted (world ∅ unreachable).
Proof. apply (init_without_credential (world ∅ unreachable)); reflexivity. Defined.

Lemma init_empty_credential_run :
  __init__ (Some EmptyString) (world ∅ unreachable) = __init__ None (world ∅ unreachable)
  /\ fst (__init__ (Some EmptyString) (world ∅ unreachable))
     = Raise (ValueError key_not_found).
Proof. apply (init_empty_credential (world ∅ unreachable)); reflexivity. Defined.

Lemma payload_max_tokens_run :
  (query_payload client "hi" "Be precise and concise." !! "max_tokens" = None
   /\ stream_query_payload client "hi" "Be precise and concise." !! "max_tokens" = None)
  /\ (query_payload client64 "hi" "Be precise and concise." !! "max_tokens"
      = Some (VNum (NInt 64))
      /\ stream_query_payload client64 "hi" "Be precise and concise." !! "max_tokens"
         = Some (VNum (NInt 64))).
Proof.
  split.
  - apply (proj1 (payload_max_tokens client "hi" "Be precise and concise.")).
    reflexivity.
  - apply (proj2 (payload_max_tokens client64 "hi" "Be precise and concise.") 64).
    + lia.
    + reflexivity.
Defined.

Lemma init_secret :
  __init__ (Some "secret") (world ∅ unreachable)
  = (Ok client,
     {| environ := ∅; dotenv_file := ∅; urandom := fun _ size => zeros size;
        urandom_calls := 2; clock := 0; server := unreachable; posted := [] |}).
Proof. reflexivity. Qed.

Lemma init_stores_plaintext_run :
  exists k, credential (Some "secret") (world ∅ unreachable) = Some k
            /\ api_key (config client) = Some k.
Proof. exact (init_stores_plaintext _ _ _ _ init_secret). Defined.

Lemma headers_carry_credential_run :
  exists k,
    credential (Some "secret") (world ∅ unreachable) = Some k
    /\ _get_headers client = Ok (headers_for k)
    /\ (forall prompt system_prompt w,
          posted (snd (query client prompt system_prompt w))
          = posted w ++ [query_request client prompt system_prompt (headers_for k)])
    /\ (forall prompt system_prompt w,
          posted (snd (stream_query client prompt system_prompt w))
          = posted w ++ [stream_query_request client prompt system_prompt (headers_for k)]).
Proof. exact (headers_carry_credential _ _ _ _ tag_fernet_roundtrip init_secret). Defined.

(** C9, as the specification has it, fails: a configuration is
    whatever its constructor is given. *)
Lemma overheated_out_of_range :
  temperature overheated = NFloat 2
  /\ in_unit_interval (temperature overheated) = false.
Proof. split; reflexivity. Qed.

Lemma init_temperature_run :
  temperature (config client) = NFloat 0x1.999999999999ap-3
  /\ in_unit_interval (temperature (config client)) = true.
Proof. exact (init_temperature _ _ _ _ init_secret). Defined.
End Runs.

(** * Further properties of the payload *)

Section PayloadFields.
Import PerplexityAPI.

(** The fields both methods copy from the configuration are in the
    payload under their own names, with the values the configuration
    holds. *)
Theorem payload_copies_configuration (self : t) (prompt system_prompt : string) :
  let copied : gmap string pyval :=
    {[ "model" := VStr (model (config self));
       "temperature" := VNum (temperature (config self));
       "top_p" := VNum (top_p (config self));
       "presence_penalty" := VNum (presence_penalty (config self));
       "frequency_penalty" := VNum (frequency_penalty (config self));
       "return_images" := VBool (return_images (config self));
       "return_related_questions" := VBool (return_related_questions (config self));
       "top_k" := VNum (NInt (top_k (config self))) ]} in
  copied ⊆ query_payload self prompt system_prompt
  /\ copied ⊆ stream_query_payload self prompt system_prompt.
Proof.
  cbv zeta.
  split; apply map_subseteq_spec; intros k v Hk;
    repeat (apply lookup_insert_Some in Hk as [[<- <-]|[_ Hk]]; [payload_lookup|]);
    apply lookup_singleton_Some in Hk as [<- <-]; payload_lookup.
Qed.

(** The keys of a payload: the ten that are always there, and each of
    the three optional ones exactly when its configuration value is
    truthy.  Nothing else is ever sent. *)
Theorem payload_keys (self : t) (prompt system_prompt : string) :
  let keys : gset string :=
    {[ "model"; "messages"; "temperature"; "top_p"; "presence_penalty";
       "frequency_penalty"; "stream"; "return_images";
       "return_related_questions"; "top_k" ]}
    ∪ (if truthy_opt_int (max_tokens (config self))
       then {[ "max_tokens" ]} else ∅)
    ∪ (if truthy_opt_list (search_domain_filter (config self))
       then {[ "search_domain_filter" ]} else ∅)
    ∪ (if truthy_str (search_recency_filter (config self))
       then {[ "search_recency_filter" ]} else ∅) in
  dom (query_payload self prompt system_prompt) = keys
  /\ dom (stream_query_payload self prompt system_prompt) = keys.
Proof.
  cbv zeta. unfold query_payload, stream_query_payload, update_flags.
  destruct (truthy_opt_int _), (truthy_opt_list _), (truthy_str _);
    split; rewrite !dom_insert_L, dom_singleton_L; set_solver.
Qed.

(** [max_tokens] follows Python truthiness: 0 is left out like an unset
    value, and every other integer, a negative one too, is sent as it
    is. *)
Theorem payload_max_tokens_zero_negative (self : t) (prompt system_prompt : string)
    (n : Z) :
  max_tokens (config self) = Some n ->
  query_payload self prompt system_prompt !! "max_tokens"
    = (if n =? 0 then None else Some (VNum (NInt n)))
  /\ stream_query_payload self prompt system_prompt !! "max_tokens"
    = (if n =? 0 then None else Some (VNum (NInt n))).
Proof.
  intros Hn. unfold query_payload, stream_query_payload.
  rewrite Hn. cbn [truthy_opt_int of_opt_int].
  split; rewrite update_flags_lookup by discriminate;
    destruct (n =? 0); cbn [negb];
    repeat match goal with
           | |- context [if ?b then _ else _] => destruct b
           end;
    simplify_map_eq; reflexivity.
Qed.

(** [search_domain_filter] is sent, as it is, exactly when it is a
    non-empty list: an unset filter and an empty list both leave the
    key out. *)
Theorem payload_search_domain_filter (self : t) (prompt system_prompt : string) :
  let sent : option pyval :=
    match search_domain_filter (config self) with
    | Some (d :: ds) => Some (VList (d :: ds))
    | _ => None
    end in
  query_payload self prompt system_prompt !! "search_domain_filter" = sent
  /\ stream_query_payload self prompt system_prompt !! "search_domain_filter" = sent.
Proof.
  cbv zeta. unfold query_payload, stream_query_payload.
  destruct (search_domain_filter (config self)) as [[|d ds]|] eqn:Hf;
    split; rewrite update_flags_lookup by discriminate; cbv zeta;
    rewrite ?Hf; cbn [truthy_opt_list of_opt_list];
    repeat match goal with
           | |- context [if ?b then _ else _] => destruct b
           end;
    simplify_map_eq; reflexivity.
Qed.

(** [search_recency_filter] is sent exactly when it is a non-empty
    string. *)
Theorem payload_search_recency_filter (self : t) (prompt system_prompt : string) :
  let sent : option pyval :=
    match search_recency_filter (config self) with
    | EmptyString => None
    | recency => Some (VStr recency)
    end in
  query_payload self prompt system_prompt !! "search_recency_filter" = sent
  /\ stream_query_payload self prompt system_prompt !! "search_recency_filter" = sent.
Proof.
  cbv zeta. unfold query_payload, stream_query_payload.
  destruct (search_recency_filter (config self)) as [|c r] eqn:Hf;
    split; rewrite update_flags_lookup by discriminate; cbv zeta;
    rewrite ?Hf; cbn [truthy_str];
    repeat match goal with
           | |- context [if ?b then _ else _] => destruct b
           end;
    simplify_map_eq; reflexivity.
Qed.
End PayloadFields.

(** * Further properties of the constructor *)

Section ConstructorContract.
Context `{Fernet}.
Import PerplexityAPI.

(** What the constructor does to the world, whatever its outcome. *)
Lemma init_world (a : option string) (w : World) :
  posted (snd (__init__ a w)) = posted w
  /\ server (snd (__init__ a w)) = server w
  /\ environ (snd (__init__ a w)) = environ w ∪ dotenv_file w.
Proof.
  unfold __init__, bind, load_dotenv, os_getenv, os_urandom,
    time_time, lift, ret, raise, str_encode. cbn.
  destruct (or_else a _) as [k|]; cbn; [|repeat split].
  destruct (truthy_str k); cbn; [|repeat split].
  destruct (utf8_valid k); cbn; repeat split.
Qed.

(** The constructor never makes a network call, whether it succeeds
    or fails, and it leaves the variables of the [.env] file in the
    process environment, where a variable that was already set keeps
    its value. *)
Theorem init_effects (a : option string) (w : World) (name : string) :
  posted (snd (__init__ a w)) = posted w
  /\ environ (snd (__init__ a w)) !! name
     = match environ w !! name with
       | Some v => Some v
       | None => dotenv_file w !! name
       end.
Proof.
  destruct (init_world a w) as (Hp & _ & He). split; [exact Hp|].
  rewrite He, lookup_union. destruct (environ w !! name), (dotenv_file w !! name);
    reflexivity.
Qed.

Lemma init_succeeds (a : option string) (w : World) (k : string) :
  credential a w = Some k -> truthy_str k = true -> utf8_valid k = true ->
  exists c w', __init__ a w = (Ok c, w').
Proof.
  unfold credential, __init__, bind, load_dotenv, os_getenv, os_urandom,
    time_time, lift, ret, raise, str_encode. cbn.
  intros -> Hk Hv. cbn. rewrite Hk. cbn. rewrite Hv. cbn. eauto.
Qed.

(** Construction succeeds exactly when the credential it settles on is
    a non-empty string that UTF-8 can encode. *)
Theorem init_succeeds_iff (a : option string) (w : World) :
  is_ok (fst (__init__ a w)) = true
  <-> exists k, credential a w = Some k
                /\ truthy_str k = true /\ utf8_valid k = true.
Proof.
  split.
  - destruct (__init__ a w) as [[c|e] w'] eqn:Hi; [|discriminate]. intros _.
    apply init_succeeds_inv in Hi as (k & seed & iv & now & Hc & Hk & Hv & _).
    eauto.
  - intros (k & Hc & Hk & Hv).
    destruct (init_succeeds a w k Hc Hk Hv) as (c & w' & ->). reflexivity.
Qed.

(** A credential with a lone surrogate passes the emptiness test and
    then fails to encode: the constructor raises [UnicodeEncodeError],
    not the no-credential error. *)
Theorem init_unencodable (a : option string) (w : World) (k : string) :
  credential a w = Some k -> truthy_str k = true -> utf8_valid k = false ->
  fst (__init__ a w) = Raise UnicodeEncodeError.
Proof.
  unfold credential, __init__, bind, load_dotenv, os_getenv, os_urandom,
    time_time, lift, ret, raise, str_encode. cbn.
  intros -> Hk Hv. cbn. rewrite Hk. cbn. rewrite Hv. reflexivity.
Qed.

(** Where the credential of a constructed client comes from: the
    argument when it is a non-empty string, else the process
    environment, else the [.env] file. *)
Theorem init_credential_precedence (a : option string) (w w' : World) (c : t) :
  __init__ a w = (Ok c, w') ->
  api_key (config c)
  = (if truthy_opt_str a then a
     else match environ w !! "PPLX_API_KEY" with
          | Some v => Some v
          | None => dotenv_file w !! "PPLX_API_KEY"
          end).
Proof.
  intros Hi. apply init_succeeds_inv in Hi as (k & seed & iv & now & Hc & _ & _ & -> & _).
  cbn. rewrite <- Hc. unfold credential, or_else.
  destruct (truthy_opt_str a); [reflexivity|].
  rewrite lookup_union.
  destruct (environ w !! "PPLX_API_KEY"), (dotenv_file w !! "PPLX_API_KEY");
    reflexivity.
Qed.

(** What a freshly constructed client sends: the default model and
    sampling parameters, the recency filter "month", and neither
    [max_tokens] nor [search_domain_filter]. *)
Theorem init_default_payload (a : option string) (w w' : World) (c : t)
    (prompt system_prompt : string) :
  __init__ a w = (Ok c, w') ->
  let payload (stream : bool) : gmap string pyval :=
    {[ "top_k" := VNum (NInt 0);
       "return_related_questions" := VBool false;
       "return_images" := VBool false;
       "search_recency_filter" := VStr "month";
       "model" := VStr "llama-3.1-sonar-small-128k-online";
       "messages" := VList [message "system" system_prompt; message "user" prompt];
       "temperature" := VNum (NFloat 0x1.999999999999ap-3);
       "top_p" := VNum (NFloat 0x1.ccccccccccccdp-1);
       "presence_penalty" := VNum (NInt 0);
       "frequency_penalty" := VNum (NInt 1);
       "stream" := VBool stream ]} in
  query_payload c prompt system_prompt = payload false
  /\ stream_query_payload c prompt system_prompt = payload true.
Proof.
  intros Hi. apply init_succeeds_inv in Hi as (k & seed & iv & now & _ & _ & _ & -> & _).
  split; reflexivity.
Qed.
End ConstructorContract.

(** * Further properties of the calls *)

Section CallContract.
Context `{Fernet} `{FloatParser}.
Import PerplexityAPI.

(** The world after a POST of the request [req]. *)
Lemma query_world (self : t) (prompt system_prompt : string) (w : World)
    (headers : gmap string string) :
  _get_headers self = Ok headers ->
  snd (query self prompt system_prompt w)
  = {| environ := environ w;
       dotenv_file := dotenv_file w;
       urandom := urandom w;
       urandom_calls := urandom_calls w;
       clock := clock w;
       server := server w;
       posted := posted w ++ [query_request self prompt system_prompt headers] |}.
Proof.
  intros Hh. unfold query, except_RequestException, bind, lift, requests_post,
    query_request, raise.
  rewrite Hh.
  destruct (server w _) as [r|[]]; try reflexivity.
  destruct (raise_for_status r) as [[]|[]]; try reflexivity.
  destruct (json_body r) as [v|[]]; reflexivity.
Qed.

(** The headers of a constructed client. *)
Lemma constructed_headers (a : option string) (w w' : World) (c : t) :
  fernet_roundtrip ->
  __init__ a w = (Ok c, w') ->
  exists k, credential a w = Some k /\ _get_headers c = Ok (headers_for k).
Proof.
  intros Hrt Hi.
  apply init_succeeds_inv in Hi as (k & seed & iv & now & Hc & _ & Hv & -> & _).
  exists k. split; [assumption|].
  unfold _get_headers, bytes_decode. cbn. rewrite Hrt, Hv. reflexivity.
Qed.

(** A client whose token does not decrypt never reaches the network:
    [_get_headers] raises [InvalidToken], [query] raises it unwrapped
    without posting, and [stream_query] yields nothing and raises it. *)
Theorem undecryptable_token (self : t) (prompt system_prompt : string) (w : World) :
  decrypt (_fernet self) (_encrypted_key self) = None ->
  _get_headers self = Raise InvalidToken
  /\ query self prompt system_prompt w = (Raise InvalidToken, w)
  /\ stream_query self prompt system_prompt w = (([], Some InvalidToken), w).
Proof.
  intros Hd.
  assert (Hh : _get_headers self = Raise InvalidToken)
    by (unfold _get_headers; rewrite Hd; reflexivity).
  repeat split; [exact Hh | |].
  - unfold query, except_RequestException, bind, lift. rewrite Hh. reflexivity.
  - unfold stream_query. rewrite Hh. reflexivity.
Qed.

(** [query] wraps the exceptions of the requests library and no
    others: an exception of another class, raised by the POST or by
    [response.json()], reaches the caller as it is, while a
    [RequestException] raised by [response.json()] becomes the
    [RuntimeError] of a failed request. *)
Theorem query_wraps_only_request_errors (self : t) (prompt system_prompt : string)
    (w : World) (headers : gmap string string) :
  _get_headers self = Ok headers ->
  (forall e, (forall kind cause, e <> RequestException kind cause) ->
     server w (query_request self prompt system_prompt headers) = Raise e ->
     fst (query self prompt system_prompt w) = Raise e)
  /\ (forall r e, (forall kind cause, e <> RequestException kind cause) ->
     server w (query_request self prompt system_prompt headers) = Ok r ->
     raise_for_status r = Ok tt ->
     json_body r = Raise e ->
     fst (query self prompt system_prompt w) = Raise e)
  /\ (forall r kind cause,
     server w (query_request self prompt system_prompt headers) = Ok r ->
     raise_for_status r = Ok tt ->
     json_body r = Raise (RequestException kind cause) ->
     fst (query self prompt system_prompt w)
       = Raise (RuntimeError ("API request failed: " +:+ cause))).
Proof.
  intros Hh. unfold query, except_RequestException, bind, lift, requests_post,
    query_request, raise.
  rewrite Hh. repeat split.
  - intros e He ->. destruct e; try reflexivity. destruct (He kind msg eq_refl).
  - intros r e He -> -> ->. destruct e; try reflexivity. destruct (He kind msg eq_refl).
  - intros r kind cause -> -> ->. reflexivity.
Qed.

(** Two calls of [query] with the same arguments post the same request
    twice, and change nothing else in the world: the client keeps no
    state between calls. *)
Theorem query_twice (self : t) (prompt system_prompt : string) (w : World)
    (headers : gmap string string) :
  _get_headers self = Ok headers ->
  snd (query self prompt system_prompt (snd (query self prompt system_prompt w)))
  = {| environ := environ w;
       dotenv_file := dotenv_file w;
       urandom := urandom w;
       urandom_calls := urandom_calls w;
       clock := clock w;
       server := server w;
       posted := posted w ++ [query_request self prompt system_prompt headers;
                              query_request self prompt system_prompt headers] |}.
Proof.
  intros Hh. rewrite !(query_world _ _ _ _ headers Hh). cbn.
  rewrite <- app_assoc. reflexivity.
Qed.
End CallContract.

(** * Further properties of the stream *)

Section StreamContract.
Context `{Fernet} `{FloatParser}.
Import PerplexityAPI.

(** The loop decodes line by line: after lines that are read without
    an exception, it goes on with the rest as if it started there. *)
Lemma iter_events_app (before after : list bytes) (fin : option exn)
    (vs : list pyval) :
  iter_events before None = (vs, None) ->
  iter_events (before ++ after) fin
  = (vs ++ fst (iter_events after fin), snd (iter_events after fin)).
Proof.
  revert vs. induction before as [|line rest IH]; intros vs Hb.
  - injection Hb as <-. cbn [app]. destruct (iter_events after fin). reflexivity.
  - cbn [iter_events app] in Hb |- *.
    destruct (truthy_str line && truthy_str (strip line)); [|auto].
    destruct (bytes_decode line) as [data|e]; [|discriminate].
    destruct (Json.loads (event_text data)) as [v|[]]; try discriminate; [|auto].
    destruct (iter_events rest None) as [vs' e'] eqn:Hr.
    injection Hb as <- ->. rewrite (IH vs' eq_refl). reflexivity.
Qed.

Lemma stream_query_lines (self : t) (prompt system_prompt : string) (w : World)
    (headers : gmap string string) (r : Response) :
  _get_headers self = Ok headers ->
  server w (stream_query_request self prompt system_prompt headers) = Ok r ->
  raise_for_status r = Ok tt ->
  fst (stream_query self prompt system_prompt w)
  = (fst (iter_events (lines r) (lines_end r)),
     option_map stream_except (snd (iter_events (lines r) (lines_end r)))).
Proof.
  intros Hh Hs Hr. unfold stream_query, requests_post.
  fold (stream_query_request self prompt system_prompt headers).
  unfold stream_query_request in Hs |- *. rewrite Hh, Hs, Hr.
  destruct (iter_events _ _). reflexivity.
Qed.

(** A transfer that breaks off after some lines: the values of these
    lines are yielded, and then the generator raises [RuntimeError]
    with the message "Streaming request failed: " and the cause. *)
Theorem stream_interrupted (self : t) (prompt system_prompt : string) (w : World)
    (headers : gmap string string) (r : Response) (vs : list pyval)
    (kind : request_error) (cause : string) :
  _get_headers self = Ok headers ->
  server w (stream_query_request self prompt system_prompt headers) = Ok r ->
  raise_for_status r = Ok tt ->
  iter_events (lines r) None = (vs, None) ->
  lines_end r = Some (RequestException kind cause) ->
  fst (stream_query self prompt system_prompt w)
  = (vs, Some (RuntimeError ("Streaming request failed: " +:+ cause))).
Proof.
  intros Hh Hs Hr Hl He.
  rewrite (stream_query_lines _ _ _ _ _ _ Hh Hs Hr), He.
  rewrite <- (app_nil_r (lines r)), (iter_events_app _ _ _ _ Hl).
  cbn. rewrite app_nil_r. reflexivity.
Qed.

(** A line that is not UTF-8 ends the stream: the values of the lines
    before it are yielded, the generator raises [UnicodeDecodeError]
    (it is not wrapped), and the lines after it are never read. *)
Theorem stream_undecodable_line (self : t) (prompt system_prompt : string)
    (w : World) (headers : gmap string string) (r : Response)
    (before after : list bytes) (bad : bytes) (vs : list pyval) :
  _get_headers self = Ok headers ->
  server w (stream_query_request self prompt system_prompt headers) = Ok r ->
  raise_for_status r = Ok tt ->
  lines r = before ++ bad :: after ->
  iter_events before None = (vs, None) ->
  truthy_str (strip bad) = true ->
  utf8_valid bad = false ->
  fst (stream_query self prompt system_prompt w) = (vs, Some UnicodeDecodeError).
Proof.
  intros Hh Hs Hr Hl Hb Ht Hu.
  rewrite (stream_query_lines _ _ _ _ _ _ Hh Hs Hr), Hl.
  rewrite (iter_events_app _ _ _ _ Hb).
  assert (Hn : truthy_str bad = true) by (destruct bad; [discriminate | reflexivity]).
  cbn [iter_events]. unfold bytes_decode. rewrite Hn, Ht, Hu. cbn.
  rewrite app_nil_r. reflexivity.
Qed.

(** Empty and whitespace-only lines change nothing: the loop does the
    same with and without them. *)
Theorem iter_events_ignores_blank_lines (ls : list bytes) (fin : option exn) :
  iter_events (List.filter (fun line => truthy_str line && truthy_str (strip line)) ls) fin
  = iter_events ls fin.
Proof.
  induction ls as [|line rest IH]; [reflexivity|].
  cbn [List.filter].
  destruct (truthy_str line && truthy_str (strip line)) eqn:Hb.
  - cbn [iter_events]. rewrite Hb, IH. reflexivity.
  - cbn [iter_events]. rewrite Hb. exact IH.
Qed.
End StreamContract.

(** * Blank lines and the SSE prefix *)

Section Lines.
Context `{Fernet} `{FloatParser}.
Import PerplexityAPI Json.

Lemma lstrip_truthy (s : string) : truthy_str (lstrip s) = has_nonspace s.
Proof.
  induction s as [|c r IH]; [reflexivity|]. cbn.
  destruct (Ascii.is_space c); [exact IH | reflexivity].
Qed.

Lemma has_nonspace_lstrip (s : string) : has_nonspace (lstrip s) = has_nonspace s.
Proof.
  induction s as [|c r IH]; [reflexivity|]. cbn.
  destruct (Ascii.is_space c) eqn:Hc; [exact IH|]. cbn. rewrite Hc. reflexivity.
Qed.

Lemma has_nonspace_rev_app (s1 s2 : string) :
  has_nonspace (String.rev_app s1 s2) = has_nonspace s1 || has_nonspace s2.
Proof.
  revert s2. induction s1 as [|c r IH]; intros s2; [reflexivity|]. cbn.
  rewrite IH. cbn. destruct (Ascii.is_space c), (has_nonspace r); reflexivity.
Qed.

Lemma rev_app_truthy (s acc : string) :
  truthy_str acc = true -> truthy_str (String.rev_app s acc) = true.
Proof.
  revert acc. induction s as [|c r IH]; intros acc Ha; [exact Ha|].
  cbn. apply IH. reflexivity.
Qed.

Lemma rev_truthy (s : string) : truthy_str (String.rev s) = truthy_str s.
Proof.
  destruct s as [|c r]; [reflexivity|]. unfold String.rev. cbn.
  apply rev_app_truthy. reflexivity.
Qed.

(** A line survives [strip] exactly when it has a byte that is not
    whitespace. *)
Lemma strip_truthy (s : string) : truthy_str (strip s) = has_nonspace s.
Proof.
  unfold strip, rstrip. rewrite rev_truthy, lstrip_truthy. unfold String.rev.
  rewrite has_nonspace_rev_app, has_nonspace_lstrip. cbn.
  apply orb_false_r.
Qed.

Lemma has_nonspace_truthy (s : string) :
  has_nonspace s = true -> truthy_str s = true.
Proof. destruct s; [discriminate | reflexivity]. Qed.

Lemma is_ws_is_space (c : ascii) : is_ws c = true -> Ascii.is_space c = true.
Proof.
  destruct c as [[] [] [] [] [] [] [] []]; cbn; intros Hc;
    reflexivity || discriminate Hc.
Qed.

Lemma has_nonspace_skip_ws (s : string) :
  has_nonspace (skip_ws s) = has_nonspace s.
Proof.
  induction s as [|c r IH]; [reflexivity|]. cbn [skip_ws].
  destruct (is_ws c) eqn:Hc; [|reflexivity].
  cbn. rewrite (is_ws_is_space c Hc). exact IH.
Qed.

Lemma is_space_cases (c : ascii) :
  Ascii.is_space c = true ->
  c = "009"%char \/ c = "010"%char \/ c = "011"%char
  \/ c = "012"%char \/ c = "013"%char \/ c = " "%char.
Proof.
  destruct c as [[] [] [] [] [] [] [] []]; cbn; intros Hc;
    try discriminate Hc; tauto.
Qed.

(** No value starts with whitespace, and none starts with the letter d. *)
Lemma scan_once_first (fuel : nat) (c : ascii) (r r' : string) (v : pyval) :
  scan_once fuel (String c r) = Scanned v r' ->
  Ascii.is_space c = false /\ c <> "d"%char.
Proof.
  destruct fuel as [|fuel]; [discriminate|]. intros Hs. split.
  - destruct (Ascii.is_space c) eqn:Hc; [|reflexivity].
    apply is_space_cases in Hc as [->|[->|[->|[->|[->| ->]]]]];
      cbn in Hs; discriminate Hs.
  - intros ->. cbn in Hs. discriminate Hs.
Qed.

(** A text that [json.loads] accepts is not blank and does not start
    with the SSE prefix. *)
Lemma loads_text (x : string) (v : pyval) :
  loads x = Ok v -> has_nonspace x = true /\ startswith "data: " x = false.
Proof.
  unfold loads. intros Hl.
  destruct (scan_once (fuel_for x) (skip_ws x)) as [v' r| |] eqn:Hs;
    try discriminate.
  destruct (skip_ws x) as [|c r0] eqn:Hx.
  { unfold fuel_for in Hs. rewrite Nat.add_comm in Hs. discriminate Hs. }
  apply scan_once_first in Hs as [Hc Hd]. split.
  - rewrite <- has_nonspace_skip_ws, Hx. cbn. rewrite Hc. reflexivity.
  - destruct x as [|c0 x']; [reflexivity|]. cbn [startswith].
    destruct (Ascii.eqb_spec "d" c0) as [<-|]; [|reflexivity].
    cbn in Hx. injection Hx as <- _. contradiction.
Qed.

(** The SSE prefix is optional: a line with a JSON text yields its
    value whether or not [data: ] stands before the text. *)
Theorem sse_prefix_optional (x : string) (v : pyval) (rest : list bytes)
    (fin : option exn) :
  loads x = Ok v ->
  utf8_valid x = true ->
  iter_events (("data: " +:+ x) :: rest) fin
    = (v :: fst (iter_events rest fin), snd (iter_events rest fin))
  /\ iter_events (x :: rest) fin
    = (v :: fst (iter_events rest fin), snd (iter_events rest fin)).
Proof.
  intros Hl Hu. destruct (loads_text x v Hl) as [Hn Hp]. split.
  - change ("data: " +:+ x)
      with (String "d" (String "a" (String "t" (String "a"
              (String ":" (String " " x)))))).
    apply iter_events_value.
    + rewrite strip_truthy. reflexivity.
    + exact Hu.
    + exact Hl.
  - apply iter_events_value.
    + rewrite strip_truthy, Hn, (has_nonspace_truthy x Hn). reflexivity.
    + exact Hu.
    + unfold event_text. rewrite Hp. exact Hl.
Qed.
End Lines.

(** * Properties of [main] *)

Section MainProgram.
Context `{Fernet} `{FloatParser}.
Import PerplexityAPI.

(** Without a credential in the environment [main] prints the
    no-credential error and nothing else, and posts nothing. *)
Theorem main_without_credential (w : World) :
  environ w !! "PPLX_API_KEY" = None ->
  dotenv_file w !! "PPLX_API_KEY" = None ->
  fst (main w) = [PrintError (ClientError (ValueError key_not_found))]
  /\ posted (snd (main w)) = posted w.
Proof.
  intros He Hd. unfold main.
  destruct (init_fails None w) as (w' & -> & Hp).
  - unfold credential. cbn.
    replace ((environ w ∪ dotenv_file w) !! "PPLX_API_KEY") with (@None string);
      [reflexivity|].
    symmetry. apply lookup_union_None. split; assumption.
  - split; [reflexivity | exact Hp].
Qed.

(** When the query fails, [main] prints its first heading and the
    error, and stops: the streaming request is never posted. *)
Theorem main_stops_after_failed_query (w w1 : World) (c : t)
    (headers : gmap string string) (e : exn) :
  __init__ None w = (Ok c, w1) ->
  _get_headers c = Ok headers ->
  fst (query c query_prompt default_system_prompt w1) = Raise e ->
  fst (main w) = [PrintText "Regular query response:"; PrintError (ClientError e)]
  /\ posted (snd (main w))
     = posted w ++ [query_request c query_prompt default_system_prompt headers].
Proof.
  intros Hi Hh Hq. unfold main. rewrite Hi.
  pose proof (query_posts c query_prompt default_system_prompt w1 headers Hh) as Hp.
  destruct (query c query_prompt default_system_prompt w1) as [[v|e'] w2].
  - discriminate Hq.
  - cbn in Hq, Hp |- *. injection Hq as ->. split; [reflexivity|].
    rewrite Hp.
    apply init_succeeds_inv in Hi as (k & seed & iv & now & _ & _ & _ & _ & ->).
    reflexivity.
Qed.

(** When the query succeeds, [main] prints its heading, the response
    and the second heading, then what the chunks give; it posts two
    requests, the query and then the streaming request. *)
Theorem main_run (w w1 : World) (c : t) (headers : gmap string string)
    (v : pyval) :
  __init__ None w = (Ok c, w1) ->
  _get_headers c = Ok headers ->
  fst (query c query_prompt default_system_prompt w1) = Ok v ->
  (exists chunks fin,
     fst (main w)
     = [PrintText "Regular query response:"; PrintJson v;
        PrintText streaming_banner] ++ print_chunks chunks fin)
  /\ posted (snd (main w))
     = posted w ++ [query_request c query_prompt default_system_prompt headers;
                    stream_query_request c stream_prompt default_system_prompt headers].
Proof.
  intros Hi Hh Hq. unfold main. rewrite Hi.
  pose proof (query_posts c query_prompt default_system_prompt w1 headers Hh) as Hp.
  destruct (query c query_prompt default_system_prompt w1) as [[v'|e'] w2];
    [|discriminate Hq].
  cbn in Hq, Hp. injection Hq as ->.
  pose proof (stream_query_posts c stream_prompt default_system_prompt w2 headers Hh)
    as Hs.
  destruct (stream_query c stream_prompt default_system_prompt w2)
    as [[chunks fin] w3].
  cbn in Hs |- *. split; [eauto|].
  rewrite Hs, Hp.
  apply init_succeeds_inv in Hi as (k & seed & iv & now & _ & _ & _ & _ & ->).
  rewrite <- app_assoc. reflexivity.
Qed.

Lemma py_in_present (d : gmap string pyval) (key : string) (x : pyval) :
  d !! key = Some x -> py_in key (VDict d) = inr true.
Proof. intros Hd. cbn. rewrite bool_decide_true by eauto. reflexivity. Qed.

Lemma py_in_absent (d : gmap string pyval) (key : string) :
  d !! key = None -> py_in key (VDict d) = inr false.
Proof.
  intros Hd. cbn. rewrite bool_decide_false; [reflexivity|].
  rewrite Hd. intros [? [=]].
Qed.

Lemma py_getitem_present (d : gmap string pyval) (key : string) (x : pyval) :
  d !! key = Some x -> py_getitem (VDict d) key = inr x.
Proof. intros Hd. cbn. rewrite Hd. reflexivity. Qed.

(** The content of a chunk is that of the delta of its first choice;
    an empty content is not printed. *)
Theorem chunk_content_first_delta (d first delta : gmap string pyval)
    (others : list pyval) (content : pyval) :
  d !! "choices" = Some (VList (VDict first :: others)) ->
  first !! "delta" = Some (VDict delta) ->
  delta !! "content" = Some content ->
  chunk_content (VDict d) = inr (if truthy content then Some content else None).
Proof.
  intros Hd Hf Hc. unfold chunk_content. repeat chunk_step_by py_in_present py_in_absent py_getitem_present.
  cbn [lookup_bind]. destruct (truthy content); reflexivity.
Qed.

(** A chunk with no choices, with an empty list of choices, or whose
    first choice has no delta or a delta without content prints
    nothing and raises nothing. *)
Theorem chunk_content_nothing (d : gmap string pyval) :
  (d !! "choices" = None -> chunk_content (VDict d) = inr None)
  /\ (d !! "choices" = Some (VList []) -> chunk_content (VDict d) = inr None)
  /\ (forall first others,
        d !! "choices" = Some (VList (VDict first :: others)) ->
        first !! "delta" = None ->
        chunk_content (VDict d) = inr None)
  /\ (forall first others delta,
        d !! "choices" = Some (VList (VDict first :: others)) ->
        first !! "delta" = Some (VDict delta) ->
        delta !! "content" = None ->
        chunk_content (VDict d) = inr None).
Proof.
  unfold chunk_content. repeat split; intros; repeat chunk_step_by py_in_present py_in_absent py_getitem_present; reflexivity.
Qed.

(** A chunk that is [null], a boolean or a number ends the display:
    the membership test raises [TypeError], [main] prints the error,
    and the chunks after it are not shown. *)
Theorem print_chunks_stops_at_scalar (chunk : pyval) (rest : list pyval)
    (fin : option exn) :
  match chunk with
  | VNone | VBool _ | VNum _ => True
  | _ => False
  end ->
  print_chunks (chunk :: rest) fin = [PrintError (LookupError TypeError)].
Proof. destruct chunk; intros Hc; try destruct Hc; reflexivity. Qed.

(** Chunks that carry a text in the delta of their first choice: the
    non-empty texts are printed, in order, and a newline ends the
    display. *)
Theorem print_chunks_deltas (texts : list string) :
  print_chunks (map Fixture.delta_chunk texts) None
  = map (fun text => PrintContent (VStr text)) (List.filter truthy_str texts)
    ++ [PrintNewline].
Proof.
  induction texts as [|text rest IH]; [reflexivity|].
  cbn [map print_chunks List.filter].
  assert (Hc : chunk_content (Fixture.delta_chunk text)
               = inr (if truthy_str text then Some (VStr text) else None)).
  { unfold Fixture.delta_chunk, chunk_content.
    repeat (cbn [lookup_bind negb truthy py_getitem0];
            first [ rewrite (py_in_present _ _ _ (lookup_singleton_eq _ _))
                  | rewrite (py_getitem_present _ _ _ (lookup_singleton_eq _ _)) ]).
    cbn [lookup_bind truthy]. destruct (truthy_str text); reflexivity. }
  rewrite Hc. destruct (truthy_str text); cbn; rewrite IH; reflexivity.
Qed.
End MainProgram.

(** * The further properties on concrete runs *)

Section MoreRuns.
Import PerplexityAPI Double Fixture.

Lemma payload_max_tokens_zero_negative_run :
  (query_payload (with_max_tokens 0) "hi" default_system_prompt !! "max_tokens" = None
   /\ stream_query_payload (with_max_tokens 0) "hi" default_system_prompt
        !! "max_tokens" = None)
  /\ (query_payload (with_max_tokens (-5)) "hi" default_system_prompt !! "max_tokens"
      = Some (VNum (NInt (-5)))
      /\ stream_query_payload (with_max_tokens (-5)) "hi" default_system_prompt
           !! "max_tokens" = Some (VNum (NInt (-5)))).
Proof.
  split.
  - exact (payload_max_tokens_zero_negative (with_max_tokens 0) "hi"
             default_system_prompt 0 eq_refl).
  - exact (payload_max_tokens_zero_negative (with_max_tokens (-5)) "hi"
             default_system_prompt (-5) eq_refl).
Defined.

Lemma init_unencodable_run :
  fst (__init__ (Some lone_surrogate) (world ∅ unreachable))
  = Raise UnicodeEncodeError.
Proof.
  apply (init_unencodable (Some lone_surrogate) (world ∅ unreachable) lone_surrogate);
    reflexivity.
Defined.

Lemma init_from_environment :
  __init__ None (world (with_key "secret") unreachable)
  = (Ok client, after_init "secret" unreachable).
Proof. reflexivity. Qed.

Lemma init_credential_precedence_run :
  api_key (config client) = Some "secret".
Proof. exact (init_credential_precedence _ _ _ _ init_from_environment). Defined.

Lemma init_default_payload_run :
  query_payload client "hi" default_system_prompt
  = {[ "top_k" := VNum (NInt 0);
       "return_related_questions" := VBool false;
       "return_images" := VBool false;
       "search_recency_filter" := VStr "month";
       "model" := VStr "llama-3.1-sonar-small-128k-online";
       "messages" := VList [message "system" default_system_prompt;
                            message "user" "hi"];
       "temperature" := VNum (NFloat 0x1.999999999999ap-3);
       "top_p" := VNum (NFloat 0x1.ccccccccccccdp-1);
       "presence_penalty" := VNum (NInt 0);
       "frequency_penalty" := VNum (NInt 1);
       "stream" := VBool false ]}.
Proof.
  exact (proj1 (init_default_payload _ _ _ _ "hi" default_system_prompt
                  init_from_environment)).
Defined.

Lemma undecryptable_token_run :
  _get_headers tampered = Raise InvalidToken
  /\ query tampered "hi" default_system_prompt (world ∅ unreachable)
     = (Raise InvalidToken, world ∅ unreachable)
  /\ stream_query tampered "hi" default_system_prompt (world ∅ unreachable)
     = (([], Some InvalidToken), world ∅ unreachable).
Proof.
  apply (undecryptable_token tampered "hi" default_system_prompt
           (world ∅ unreachable)).
  reflexivity.
Defined.

Lemma query_success_run :
  fst (query client "hi" default_system_prompt
         (world ∅ (always (response 200 "OK" (Ok (VStr "ok")) []))))
  = Ok (VStr "ok").
Proof.
  refine (query_success client "hi" default_system_prompt _ (headers_for "secret")
            (response 200 "OK" (Ok (VStr "ok")) []) (VStr "ok") _ _ _ _);
    [reflexivity | reflexivity | cbn; lia | reflexivity].
Defined.

Lemma query_wraps_only_request_errors_run :
  fst (query client "hi" default_system_prompt (world ∅ crashing))
  = Raise (OtherException "MemoryError" "out of memory").
Proof.
  refine (proj1 (query_wraps_only_request_errors client "hi" default_system_prompt
                   (world ∅ crashing) (headers_for "secret") _)
            (OtherException "MemoryError" "out of memory") _ _);
    [reflexivity | discriminate | reflexivity].
Defined.

Lemma query_twice_run :
  posted (snd (query client "hi" default_system_prompt
                 (snd (query client "hi" default_system_prompt
                         (world ∅ unreachable)))))
  = [query_request client "hi" default_system_prompt (headers_for "secret");
     query_request client "hi" default_system_prompt (headers_for "secret")].
Proof.
  refine (f_equal posted
            (query_twice client "hi" default_system_prompt (world ∅ unreachable)
               (headers_for "secret") _)).
  reflexivity.
Defined.

Lemma stream_query_transport_failure_run :
  fst (stream_query client "hi" default_system_prompt (world ∅ unreachable))
  = ([], Some (RuntimeError "Streaming request failed: Connection refused")).
Proof.
  refine (proj1 (stream_query_transport_failure client "hi" default_system_prompt
                   (world ∅ unreachable) (headers_for "secret") _)
            ConnectionError "Connection refused" _);
    reflexivity.
Defined.

Lemma stream_interrupted_run :
  fst (stream_query client "hi" default_system_prompt
         (world ∅ (always (interrupted sse_lines))))
  = ([VDict {[ "a" := VNum (NInt 1) ]}; VDict {[ "a" := VNum (NInt 2) ]}],
     Some (RuntimeError "Streaming request failed: Connection broken")).
Proof.
  refine (stream_interrupted client "hi" default_system_prompt _
            (headers_for "secret") (interrupted sse_lines) _
            ConnectionError "Connection broken" _ _ _ _ _);
    reflexivity.
Defined.

Lemma stream_undecodable_line_run :
  fst (stream_query client "hi" default_system_prompt
         (world ∅ (always (response 200 "OK" (Ok VNone)
                             (sse_lines ++ [String (byte_of 255) EmptyString; "7"])))))
  = ([VDict {[ "a" := VNum (NInt 1) ]}; VDict {[ "a" := VNum (NInt 2) ]}],
     Some UnicodeDecodeError).
Proof.
  refine (stream_undecodable_line client "hi" default_system_prompt _
            (headers_for "secret")
            (response 200 "OK" (Ok VNone)
               (sse_lines ++ [String (byte_of 255) EmptyString; "7"]))
            sse_lines ["7"] (String (byte_of 255) EmptyString) _ _ _ _ _ _ _ _);
    reflexivity.
Defined.

Lemma sse_prefix_optional_run :
  iter_events ["data: 7"] None = ([VNum (NInt 7)], None)
  /\ iter_events ["7"] None = ([VNum (NInt 7)], None).
Proof.
  exact (sse_prefix_optional "7" (VNum (NInt 7)) [] None eq_refl eq_refl).
Defined.

Lemma main_without_credential_run :
  fst (main (world ∅ unreachable))
  = [PrintError (ClientError (ValueError key_not_found))]
  /\ posted (snd (main (world ∅ unreachable))) = [].
Proof. apply (main_without_credential (world ∅ unreachable)); reflexivity. Defined.

Lemma main_stops_after_failed_query_run :
  fst (main (world (with_key "secret") unreachable))
  = [PrintText "Regular query response:";
     PrintError (ClientError (RuntimeError "API request failed: Connection refused"))]
  /\ posted (snd (main (world (with_key "secret") unreachable)))
     = [query_request client query_prompt default_system_prompt (headers_for "secret")].
Proof.
  refine (main_stops_after_failed_query (world (with_key "secret") unreachable)
            _ client (headers_for "secret") _ init_from_environment _ _);
    reflexivity.
Defined.

Lemma main_run_run :
  (exists chunks fin,
     fst (main (world (with_key "secret") (chat (VStr "ok") sse_lines)))
     = [PrintText "Regular query response:"; PrintJson (VStr "ok");
        PrintText streaming_banner] ++ print_chunks chunks fin)
  /\ posted (snd (main (world (with_key "secret") (chat (VStr "ok") sse_lines))))
     = [query_request client query_prompt default_system_prompt (headers_for "secret");
        stream_query_request client stream_prompt default_system_prompt
          (headers_for "secret")].
Proof.
  refine (main_run (world (with_key "secret") (chat (VStr "ok") sse_lines))
            (after_init "secret" (chat (VStr "ok") sse_lines)) client
            (headers_for "secret") (VStr "ok") _ _ _);
    reflexivity.
Defined.

Lemma chunk_content_first_delta_run :
  chunk_content (delta_chunk "Hello") = inr (Some (VStr "Hello")).
Proof.
  refine (chunk_content_first_delta _ {[ "delta" := VDict {[ "content" := VStr "Hello" ]} ]}
            {[ "content" := VStr "Hello" ]} [] (VStr "Hello") _ _ _);
    reflexivity.
Defined.

Lemma chunk_content_nothing_run :
  chunk_content (VDict ∅) = inr None
  /\ chunk_content (VDict {[ "choices" := VList [] ]}) = inr None.
Proof.
  split.
  - apply (proj1 (chunk_content_nothing ∅)). reflexivity.
  - apply (proj1 (proj2 (chunk_content_nothing {[ "choices" := VList [] ]}))).
    reflexivity.
Defined.

Lemma print_chunks_stops_at_scalar_run :
  print_chunks [VNone; delta_chunk "Hello"] None
  = [PrintError (LookupError TypeError)].
Proof. exact (print_chunks_stops_at_scalar VNone [delta_chunk "Hello"] None I). Defined.
End MoreRuns.
